(** * SolarThermoSim: the natural-circulation loop solver of [simulator.py]

    The Python program computes with floats.  The embedding below reads
    every arithmetic operation as the exact operation on real numbers and
    keeps the control flow, the evaluation order and the one exception that
    exact arithmetic can raise (a division by zero) as the source has them.
    A second, small module, [Binary64], re-reads the program over IEEE
    binary64 numbers, where the power operator can overflow. *)

From Stdlib Require Import Reals Lra Lia List Sorted String.
From Stdlib Require Import Floats Bool.

Set Warnings "-inexact-float".
Import ListNotations.

Open Scope R_scope.

(** ** Exceptions and the result monad *)

Inductive py_error : Type :=
| ZeroDivisionError
| OverflowError
| UnboundLocalError.

Inductive res (A : Type) : Type :=
| Ok (a : A)
| Raise (e : py_error).

Arguments Ok {A} a.
Arguments Raise {A} e.

Definition bind {A B : Type} (m : res A) (k : A -> res B) : res B :=
  match m with
  | Ok a => k a
  | Raise e => Raise e
  end.

Notation "x <- m ;; k" := (bind m (fun x => k))
  (at level 61, m at next level, right associativity).

(** [a / b] on Python floats: raises when the divisor is zero. *)
Definition pydiv (a b : R) : res R :=
  if Req_dec_T b 0 then Raise ZeroDivisionError else Ok (a / b).

(** [max(a, b)]: the second argument wins only when it is strictly larger. *)
Definition pymax (a b : R) : R :=
  if Rgt_dec b a then b else a.

(** ** Data model *)

Record Fluid : Type := mkFluid {
  name : string;
  density : R;
  specific_heat : R;
  viscosity : R;
  thermal_conductivity : R
}.

Definition Water : Fluid :=
  mkFluid "Water" 998 4182 (1002 / 1000000) (598 / 1000).

Record NaturalCirculationSimulator : Type := mkSim {
  fluid : Fluid;
  loop_height : R;
  pipe_diameter : R;
  heater_power : R;
  cooler_temp : R
}.

(** The attribute [cross_section] is set once by [__init__] and never
    reassigned. *)
Definition cross_section (self : NaturalCirculationSimulator) : R :=
  PI * (pipe_diameter self / 2) ^ 2.

Record SimResult : Type := mkResult {
  flow_rate_m3_s : R;
  hot_leg_temp_C : R;
  cold_leg_temp_C : R;
  temperature_difference_C : R;
  fluid_name : string
}.

(** ** Momentum solver: [calculate_flow_rate] *)

Definition g_accel : R := 981 / 100.
Definition beta : R := 21 / 100000.
Definition tolerance : R := 1 / 1000000.
Definition max_iter : nat := 100.
Definition v_init : R := 1 / 10.
Definition v_floor : R := 1 / 100000.

Section Simulator.

Variable self : NaturalCirculationSimulator.

Let rho : R := density (fluid self).

Definition loop_length : R := 4 * loop_height self.

Definition pressure_head_of (delta_t : R) : R :=
  g_accel * rho * beta * delta_t * loop_height self.

(** [rho * velocity_guess * self.pipe_diameter / self.fluid.viscosity] *)
Definition reynolds_of (v : R) : res R :=
  pydiv (rho * v * pipe_diameter self) (viscosity (fluid self)).

(** The regime rule of lines 75-78 and 90-93.  The power [** 0.25] is only
    evaluated on the branch where [reynolds >= 2000]. *)
Definition friction_factor_of (reynolds : R) : res R :=
  if Rlt_dec reynolds 2000 then
    if Rgt_dec reynolds 0 then pydiv 64 reynolds else Ok (64 / 1000)
  else
    pydiv (316 / 1000) (Rpower reynolds (25 / 100)).

(** [friction_factor * (loop_length / D) * (rho * v ** 2) / 2] *)
Definition pressure_drop_of (friction_factor v : R) : res R :=
  q <- pydiv loop_length (pipe_diameter self) ;;
  Ok (friction_factor * q * (rho * v ^ 2) / 2).

(** The increment of line 99:
    [residual / (rho * v * loop_length / D) if v != 0 else 0.01]. *)
Definition velocity_step (residual v : R) : res R :=
  if Req_dec_T v 0 then Ok (1 / 100)
  else
    d <- pydiv (rho * v * loop_length) (pipe_diameter self) ;;
    pydiv residual d.

Inductive loop_ctl : Type :=
| Break
| Next (v : R).

(** One pass through the body of the [for] loop, lines 89-100. *)
Definition loop_body (pressure_head v : R) : res loop_ctl :=
  reynolds <- reynolds_of v ;;
  friction_factor <- friction_factor_of reynolds ;;
  pressure_drop <- pressure_drop_of friction_factor v ;;
  let residual := pressure_head - pressure_drop in
  if Rlt_dec (Rabs residual) tolerance then Ok Break
  else
    dv <- velocity_step residual v ;;
    Ok (Next (pymax (v + dv) v_floor)).

(** [for i in range(n)]: the velocity left when the loop is over. *)
Fixpoint velocity_loop (n : nat) (pressure_head v : R) : res R :=
  match n with
  | O => Ok v
  | S k =>
      c <- loop_body pressure_head v ;;
      match c with
      | Break => Ok v
      | Next v' => velocity_loop k pressure_head v'
      end
  end.

(** The velocities at which the loop body is entered, in order. *)
Fixpoint velocity_trace (n : nat) (pressure_head v : R) : list R :=
  match n with
  | O => []
  | S k =>
      v :: match loop_body pressure_head v with
           | Ok (Next v') => velocity_trace k pressure_head v'
           | _ => []
           end
  end.

Definition calculate_flow_rate (delta_t : R) : res R :=
  let pressure_head := pressure_head_of delta_t in
  (* lines 73-82: a first estimate whose values the loop overwrites *)
  reynolds <- reynolds_of v_init ;;
  friction_factor <- friction_factor_of reynolds ;;
  _ <- pressure_drop_of friction_factor v_init ;;
  v <- velocity_loop max_iter pressure_head v_init ;;
  Ok (v * cross_section self).

(** ** Energy coupler: [simulate] *)

(** One pass through the body of the outer loop, lines 119-127: the flow
    rate it binds and the relaxed temperature difference. *)
Definition outer_body (delta_t_guess : R) : res (R * R) :=
  flow_rate <- calculate_flow_rate delta_t_guess ;;
  let mass_flow := flow_rate * density (fluid self) in
  delta_t_calc <-
    (if Rgt_dec mass_flow 0 then
       pydiv (heater_power self) (mass_flow * specific_heat (fluid self))
     else Ok delta_t_guess) ;;
  Ok (flow_rate, 5 / 10 * delta_t_guess + 5 / 10 * delta_t_calc).

(** [for _ in range(n)] over the two locals the loop assigns; [flow_rate]
    is unbound until the first pass. *)
Fixpoint outer_loop (n : nat) (flow_rate : option R) (delta_t_guess : R)
  : res (option R * R) :=
  match n with
  | O => Ok (flow_rate, delta_t_guess)
  | S k =>
      p <- outer_body delta_t_guess ;;
      outer_loop k (Some (fst p)) (snd p)
  end.

Definition simulate (initial_temp : R) : res SimResult :=
  st <- outer_loop 20 None 10 ;;
  let delta_t_guess := snd st in
  let hot_temp := cooler_temp self + delta_t_guess in
  let cold_temp := cooler_temp self in
  match fst st with
  | None => Raise UnboundLocalError
  | Some flow_rate =>
      Ok (mkResult flow_rate hot_temp cold_temp delta_t_guess
            (name (fluid self)))
  end.

End Simulator.

(** ** Concrete simulators *)

(** The simulator built by [main]. *)
Definition reference_sim : NaturalCirculationSimulator :=
  mkSim Water 2 (5 / 100) 1000 20.

(** A viscous fluid in a wide pipe: the flow stays laminar and the pressure
    drop is [128 * v]. *)
Definition thick_oil : Fluid := mkFluid "Oil" 32 1 1 1.

Definition oil_sim : NaturalCirculationSimulator :=
  mkSim thick_oil 1 1 1000 20.

(** Two temperature differences for [oil_sim], with buoyancy heads
    [0.00192] and [12.8]. *)
Definition dt_low : R := 200 / 6867.
Definition dt_high : R := 4000000 / 20601.

(** A fluid ten times thinner: the pressure drop is [12.8 * v] and the
    velocity update lands on the balance point in one step. *)
Definition thin_oil : Fluid := mkFluid "Thin oil" 32 1 (1 / 10) 1.

Definition thin_sim : NaturalCirculationSimulator :=
  mkSim thin_oil 1 1 (103005 / 100000 * PI) 20.

(** The passes of the outer loop that complete: the temperature difference
    each one starts from and the flow rate it binds. *)
Fixpoint outer_trace (self : NaturalCirculationSimulator) (n : nat)
         (delta_t_guess : R) : list (R * R) :=
  match n with
  | O => []
  | S k =>
      match outer_body self delta_t_guess with
      | Ok p => (delta_t_guess, fst p) :: outer_trace self k (snd p)
      | Raise _ => []
      end
  end.

(** ** The formulas of the specification, section 4.1

    These follow the words of the specification and are compared with the
    functions above. *)

Definition spec_reynolds (self : NaturalCirculationSimulator) (v : R) : R :=
  density (fluid self) * v * pipe_diameter self / viscosity (fluid self).

Definition spec_friction (re : R) : R :=
  if Rlt_dec re 2000 then
    if Rgt_dec re 0 then 64 / re else 64 / 1000
  else 316 / 1000 / Rpower re (1 / 4).

Definition spec_drop (self : NaturalCirculationSimulator) (v : R) : R :=
  spec_friction (spec_reynolds self v)
  * (4 * loop_height self / pipe_diameter self)
  * (density (fluid self) * v ^ 2 / 2).

(** The update of step 4 followed by the clamp of step 5, for [v <> 0]. *)
Definition spec_next (self : NaturalCirculationSimulator) (head v : R) : R :=
  Rmax (v + (head - spec_drop self v)
            / (density (fluid self) * v * (4 * loop_height self)
               / pipe_diameter self))
       (1 / 100000).

(** Strictly positive fluid properties and geometry (section 3). *)
Definition positive_inputs (self : NaturalCirculationSimulator) : Prop :=
  0 < density (fluid self) /\ 0 < viscosity (fluid self) /\
  0 < pipe_diameter self /\ 0 < loop_height self.

(** ** The program over binary64 numbers

    Python floats are IEEE binary64 numbers.  Division raises on a zero
    divisor as before; [x ** 2] goes through the C library's [pow], which
    reports a result too large for the format, and Python turns that report
    into [OverflowError].  The square is taken as the rounded product and
    [x ** 0.25] as two square roots, which differ from [pow] by a rounding
    at most. *)

Module Binary64.

Local Open Scope float_scope.

Inductive loop_ctl_f : Type :=
| BreakF
| NextF (v : float).

Definition pydiv (a b : float) : res float :=
  if b =? 0 then Raise ZeroDivisionError else Ok (a / b).

Definition is_finite (x : float) : bool :=
  negb (PrimFloat.is_nan x) && negb (PrimFloat.is_infinity x).

(** [x ** 2] *)
Definition pysquare (x : float) : res float :=
  let r := x * x in
  if is_finite x && PrimFloat.is_infinity r then Raise OverflowError
  else Ok r.

(** [x ** 0.25], called with [x >= 2000] only *)
Definition pyquarter (x : float) : float :=
  PrimFloat.sqrt (PrimFloat.sqrt x).

Definition pymax (a b : float) : float := if a <? b then b else a.

Record Fluid : Type := mkFluid {
  name : string;
  density : float;
  specific_heat : float;
  viscosity : float;
  thermal_conductivity : float
}.

Record NaturalCirculationSimulator : Type := mkSim {
  fluid : Fluid;
  loop_height : float;
  pipe_diameter : float;
  heater_power : float;
  cooler_temp : float;
  cross_section : float
}.

Definition Water : Fluid := mkFluid "Water" 998.0 4182.0 0.001002 0.598.

(** [__init__], with [math.pi] as the literal Python prints for it *)
Definition init (fl : Fluid) (height diameter power cold : float)
  : res NaturalCirculationSimulator :=
  sq <- pysquare (diameter / 2) ;;
  Ok (mkSim fl height diameter power cold (3.141592653589793 * sq)).

Definition reynolds_of (self : NaturalCirculationSimulator) (v : float)
  : res float :=
  pydiv (density (fluid self) * v * pipe_diameter self)
        (viscosity (fluid self)).

Definition friction_factor_of (reynolds : float) : res float :=
  if reynolds <? 2000 then
    if 0 <? reynolds then pydiv 64 reynolds else Ok 0.064
  else pydiv 0.316 (pyquarter reynolds).

Definition pressure_drop_of (self : NaturalCirculationSimulator)
           (loop_length friction_factor v : float) : res float :=
  q <- pydiv loop_length (pipe_diameter self) ;;
  v2 <- pysquare v ;;
  Ok (friction_factor * q * (density (fluid self) * v2) / 2).

Definition velocity_step (self : NaturalCirculationSimulator)
           (loop_length residual v : float) : res float :=
  if v =? 0 then Ok 0.01
  else
    d <- pydiv (density (fluid self) * v * loop_length)
               (pipe_diameter self) ;;
    pydiv residual d.

Definition loop_body (self : NaturalCirculationSimulator)
           (loop_length pressure_head v : float) : res loop_ctl_f :=
  reynolds <- reynolds_of self v ;;
  friction_factor <- friction_factor_of reynolds ;;
  pressure_drop <- pressure_drop_of self loop_length friction_factor v ;;
  let residual := pressure_head - pressure_drop in
  if abs residual <? 1e-6 then Ok BreakF
  else
    dv <- velocity_step self loop_length residual v ;;
    Ok (NextF (pymax (v + dv) 1e-5)).

Fixpoint velocity_loop (self : NaturalCirculationSimulator) (n : nat)
         (loop_length pressure_head v : float) : res float :=
  match n with
  | O => Ok v
  | S k =>
      c <- loop_body self loop_length pressure_head v ;;
      match c with
      | BreakF => Ok v
      | NextF v' => velocity_loop self k loop_length pressure_head v'
      end
  end.

Definition calculate_flow_rate (self : NaturalCirculationSimulator)
           (delta_t : float) : res float :=
  let pressure_head :=
    9.81 * density (fluid self) * 0.00021 * delta_t * loop_height self in
  reynolds <- reynolds_of self 0.1 ;;
  friction_factor <- friction_factor_of reynolds ;;
  let loop_length := 4 * loop_height self in
  _ <- pressure_drop_of self loop_length friction_factor 0.1 ;;
  v <- velocity_loop self 100 loop_length pressure_head 0.1 ;;
  Ok (v * cross_section self).

Record SimResult : Type := mkResult {
  flow_rate_m3_s : float;
  hot_leg_temp_C : float;
  cold_leg_temp_C : float;
  temperature_difference_C : float;
  fluid_name : string
}.

Definition outer_body (self : NaturalCirculationSimulator)
           (delta_t_guess : float) : res (float * float) :=
  flow_rate <- calculate_flow_rate self delta_t_guess ;;
  let mass_flow := flow_rate * density (fluid self) in
  delta_t_calc <-
    (if 0 <? mass_flow then
       pydiv (heater_power self) (mass_flow * specific_heat (fluid self))
     else Ok delta_t_guess) ;;
  Ok (flow_rate, 0.5 * delta_t_guess + 0.5 * delta_t_calc).

Fixpoint outer_loop (self : NaturalCirculationSimulator) (n : nat)
         (flow_rate : option float) (delta_t_guess : float)
  : res (option float * float) :=
  match n with
  | O => Ok (flow_rate, delta_t_guess)
  | S k =>
      p <- outer_body self delta_t_guess ;;
      outer_loop self k (Some (fst p)) (snd p)
  end.

Definition simulate (self : NaturalCirculationSimulator)
           (initial_temp : float) : res SimResult :=
  st <- outer_loop self 20 None 10 ;;
  let delta_t_guess := snd st in
  match fst st with
  | None => Raise UnboundLocalError
  | Some flow_rate =>
      Ok (mkResult flow_rate (cooler_temp self + delta_t_guess)
            (cooler_temp self) delta_t_guess (name (fluid self)))
  end.


(** The run of [main]. *)
Definition reference_run : res SimResult :=
  self <- init Water 2 0.05 1000 20 ;;
  simulate self 20.

(** [oil_sim] of the exact model, over binary64 numbers. *)
Definition oil_flow_rate (delta_t : float) : res float :=
  self <- init (mkFluid "Oil" 32 1 1 1) 1 1 1000 20 ;;
  calculate_flow_rate self delta_t.

(** The velocities at which the loop body is entered, in order. *)
Fixpoint velocity_trace (self : NaturalCirculationSimulator) (n : nat)
         (loop_length pressure_head v : float) : list float :=
  match n with
  | O => []
  | S k =>
      v :: match loop_body self loop_length pressure_head v with
           | Ok (NextF v') =>
               velocity_trace self k loop_length pressure_head v'
           | _ => []
           end
  end.

(** Water in a pipe of diameter [2^-700]: the square in [__init__]
    underflows and the cross section is [0.0]. *)
Definition tiny_pipe_flow_rate (delta_t : float) : res float :=
  self <- init Water 2 0x1p-700 1000 20 ;;
  calculate_flow_rate self delta_t.

(** Water's properties with a density of [1e-320], in the loop of [main]. *)
Definition faint_fluid : Fluid :=
  mkFluid "Faint" 1e-320 4182.0 0.001002 0.598.

End Binary64.

(** ** Elementary facts about the result monad and the primitives *)

Lemma pydiv_ok (a b : R) : b <> 0 -> pydiv a b = Ok (a / b).
Proof.
  intros Hb. unfold pydiv. destruct (Req_dec_T b 0) as [E | _].
  - contradiction.
  - reflexivity.
Qed.

Lemma pydiv_zero (a : R) : pydiv a 0 = Raise ZeroDivisionError.
Proof.
  unfold pydiv. destruct (Req_dec_T 0 0) as [_ | N].
  - reflexivity.
  - contradiction N. reflexivity.
Qed.

Lemma bind_ok_inv {A B : Type} (m : res A) (k : A -> res B) (b : B) :
  bind m k = Ok b -> exists a, m = Ok a /\ k a = Ok b.
Proof.
  destruct m as [a | e]; simpl; intros H.
  - exists a. split; [reflexivity | exact H].
  - discriminate H.
Qed.

Lemma v_floor_pos : 0 < v_floor.
Proof. unfold v_floor. lra. Qed.

Lemma v_init_floor : v_floor <= v_init.
Proof. unfold v_floor, v_init. lra. Qed.

(** Nothing validates the inputs: a fluid without viscosity makes the first
    Reynolds number raise. *)
Lemma zero_viscosity_raises (delta_t : R) :
  calculate_flow_rate (mkSim (mkFluid "Ideal" 1000 4182 0 1) 2 1 1000 20)
    delta_t
  = Raise ZeroDivisionError.
Proof.
  unfold calculate_flow_rate, reynolds_of. simpl.
  rewrite pydiv_zero. reflexivity.
Qed.

(** ** The friction factor never raises *)

Lemma Rpower_pos (x y : R) : 0 < Rpower x y.
Proof. unfold Rpower. apply exp_pos. Qed.

Lemma quarter_eq : 25 / 100 = 1 / 4.
Proof. lra. Qed.

Lemma friction_factor_of_spec (re : R) :
  friction_factor_of re = Ok (spec_friction re).
Proof.
  unfold friction_factor_of, spec_friction.
  destruct (Rlt_dec re 2000) as [Hlam | Hturb].
  - destruct (Rgt_dec re 0) as [Hp | Hn].
    + apply pydiv_ok. lra.
    + reflexivity.
  - rewrite quarter_eq. apply pydiv_ok.
    pose proof (Rpower_pos re (1 / 4)). lra.
Qed.

Lemma spec_friction_pos (re : R) : 0 < spec_friction re.
Proof.
  unfold spec_friction.
  destruct (Rlt_dec re 2000) as [Hlam | Hturb].
  - destruct (Rgt_dec re 0) as [Hp | Hn].
    + apply Rdiv_lt_0_compat; lra.
    + lra.
  - apply Rdiv_lt_0_compat; [lra | apply Rpower_pos].
Qed.

Lemma pymax_Rmax (a b : R) : pymax a b = Rmax a b.
Proof.
  unfold pymax, Rmax.
  destruct (Rgt_dec b a), (Rle_dec a b); try reflexivity; lra.
Qed.

(** ** The loop body under strictly positive inputs *)

Section PositiveInputs.

Variable self : NaturalCirculationSimulator.
Hypothesis Hpos : positive_inputs self.

Let rho := density (fluid self).
Let mu := viscosity (fluid self).
Let D := pipe_diameter self.
Let H := loop_height self.

Lemma pos_rho : 0 < rho.
Proof. destruct Hpos as (h & _). exact h. Qed.

Lemma pos_mu : 0 < mu.
Proof. destruct Hpos as (_ & h & _). exact h. Qed.

Lemma pos_D : 0 < D.
Proof. destruct Hpos as (_ & _ & h & _). exact h. Qed.

Lemma pos_H : 0 < H.
Proof. destruct Hpos as (_ & _ & _ & h). exact h. Qed.

Lemma reynolds_of_spec (v : R) :
  reynolds_of self v = Ok (spec_reynolds self v).
Proof.
  unfold reynolds_of, spec_reynolds. apply pydiv_ok.
  pose proof pos_mu. unfold mu in *. lra.
Qed.

Lemma spec_reynolds_pos (v : R) : 0 < v -> 0 < spec_reynolds self v.
Proof.
  intros Hv. unfold spec_reynolds.
  pose proof pos_rho. pose proof pos_mu. pose proof pos_D.
  unfold rho, mu, D in *.
  apply Rdiv_lt_0_compat; [| assumption].
  apply Rmult_lt_0_compat; [| assumption].
  apply Rmult_lt_0_compat; assumption.
Qed.


Lemma pressure_drop_of_spec (v : R) :
  pressure_drop_of self (spec_friction (spec_reynolds self v)) v
  = Ok (spec_drop self v).
Proof.
  unfold pressure_drop_of, spec_drop, loop_length.
  rewrite pydiv_ok by (pose proof pos_D; unfold D in *; lra).
  simpl. f_equal. lra.
Qed.

Lemma spec_drop_pos (v : R) : 0 < v -> 0 < spec_drop self v.
Proof.
  intros Hv. unfold spec_drop.
  pose proof pos_rho. pose proof pos_D. pose proof pos_H.
  unfold rho, D, H in *.
  pose proof (spec_friction_pos (spec_reynolds self v)).
  apply Rmult_lt_0_compat.
  - apply Rmult_lt_0_compat; [assumption |].
    apply Rdiv_lt_0_compat; lra.
  - apply Rdiv_lt_0_compat; [| lra].
    apply Rmult_lt_0_compat; [assumption |].
    apply pow_lt. assumption.
Qed.

Lemma velocity_step_spec (residual v : R) :
  v <> 0 ->
  velocity_step self residual v
  = Ok (residual / (density (fluid self) * v * (4 * loop_height self)
                    / pipe_diameter self)).
Proof.
  intros Hv. unfold velocity_step, loop_length.
  pose proof pos_rho. pose proof pos_D. pose proof pos_H.
  unfold rho, D, H in *.
  destruct (Req_dec_T v 0) as [E | _]; [contradiction |].
  rewrite pydiv_ok by lra. simpl.
  apply pydiv_ok.
  assert (density (fluid self) * v * (4 * loop_height self) <> 0).
  { apply Rmult_integral_contrapositive_currified.
    - apply Rmult_integral_contrapositive_currified; lra.
    - lra. }
  unfold Rdiv. apply Rmult_integral_contrapositive_currified.
  - assumption.
  - apply Rinv_neq_0_compat. lra.
Qed.

(** The body of the loop in closed form, at a velocity that is not zero. *)
Lemma loop_body_spec (head v : R) :
  v <> 0 ->
  loop_body self head v
  = Ok (if Rlt_dec (Rabs (head - spec_drop self v)) tolerance
        then Break else Next (spec_next self head v)).
Proof.
  intros Hv. unfold loop_body.
  rewrite reynolds_of_spec. simpl.
  rewrite friction_factor_of_spec. simpl.
  rewrite pressure_drop_of_spec. simpl.
  destruct (Rlt_dec (Rabs (head - spec_drop self v)) tolerance) as [Hc | Hc].
  - reflexivity.
  - rewrite velocity_step_spec by assumption. simpl.
    rewrite pymax_Rmax. reflexivity.
Qed.

Lemma spec_next_floor (head v : R) : v_floor <= spec_next self head v.
Proof. unfold spec_next, v_floor. apply Rmax_r. Qed.


Lemma floor_nonzero (v : R) : v_floor <= v -> v <> 0.
Proof. intros Hv. pose proof v_floor_pos. lra. Qed.

Lemma loop_body_cases (head v : R) :
  v_floor <= v ->
  loop_body self head v = Ok Break
  \/ exists v', loop_body self head v = Ok (Next v') /\ v_floor <= v'.
Proof.
  intros Hv. rewrite loop_body_spec by (apply floor_nonzero; assumption).
  destruct (Rlt_dec (Rabs (head - spec_drop self v)) tolerance).
  - left. reflexivity.
  - right. eexists. split; [reflexivity | apply spec_next_floor].
Qed.

Lemma velocity_loop_floor (n : nat) (head : R) :
  forall v, v_floor <= v ->
  exists v', velocity_loop self n head v = Ok v' /\ v_floor <= v'.
Proof.
  induction n as [| n IH]; intros v Hv; simpl.
  - exists v. split; [reflexivity | assumption].
  - destruct (loop_body_cases head v Hv) as [Hb | (v' & Hb & Hv')];
      rewrite Hb; simpl.
    + exists v. split; [reflexivity | assumption].
    + apply IH. assumption.
Qed.

Lemma velocity_trace_floor (n : nat) (head : R) :
  forall v, v_floor <= v ->
  Forall (fun u => v_floor <= u) (velocity_trace self n head v).
Proof.
  induction n as [| n IH]; intros v Hv; simpl.
  - constructor.
  - constructor; [assumption |].
    destruct (loop_body_cases head v Hv) as [Hb | (v' & Hb & Hv')];
      rewrite Hb.
    + constructor.
    + apply IH. assumption.
Qed.

Lemma cross_section_pos : 0 < cross_section self.
Proof.
  unfold cross_section. pose proof pos_D. unfold D in *.
  apply Rmult_lt_0_compat; [apply PI_RGT_0 |].
  apply pow_lt. lra.
Qed.

(** The first estimate of lines 73-82 raises nothing, so the function is the
    loop followed by the multiplication. *)
Lemma calculate_flow_rate_loop (delta_t : R) :
  calculate_flow_rate self delta_t
  = (v <- velocity_loop self max_iter (pressure_head_of self delta_t) v_init ;;
     Ok (v * cross_section self)).
Proof.
  unfold calculate_flow_rate.
  rewrite reynolds_of_spec. simpl.
  rewrite friction_factor_of_spec. simpl.
  rewrite pressure_drop_of_spec. simpl. reflexivity.
Qed.

Lemma calculate_flow_rate_total (delta_t : R) :
  exists v,
    velocity_loop self max_iter (pressure_head_of self delta_t) v_init = Ok v
    /\ v_floor <= v
    /\ calculate_flow_rate self delta_t = Ok (v * cross_section self)
    /\ 0 < v * cross_section self.
Proof.
  destruct (velocity_loop_floor max_iter (pressure_head_of self delta_t)
              v_init v_init_floor) as (v & Hl & Hv).
  exists v. repeat split; try assumption.
  - rewrite calculate_flow_rate_loop, Hl. reflexivity.
  - apply Rmult_lt_0_compat; [| apply cross_section_pos].
    pose proof v_floor_pos. lra.
Qed.

End PositiveInputs.

(** ** The outer loop, for any simulator *)

Lemma outer_body_inv (self : NaturalCirculationSimulator) (d f d' : R) :
  outer_body self d = Ok (f, d') ->
  calculate_flow_rate self d = Ok f
  /\ d' = 5 / 10 * d
          + 5 / 10 * (if Rgt_dec (f * density (fluid self)) 0
                      then heater_power self
                           / (f * density (fluid self)
                              * specific_heat (fluid self))
                      else d).
Proof.
  unfold outer_body. intros Hb.
  apply bind_ok_inv in Hb. destruct Hb as (f0 & Hf & Hb).
  apply bind_ok_inv in Hb. destruct Hb as (c & Hc & Hb).
  injection Hb as Ef Ed. subst f0. split; [assumption |].
  destruct (Rgt_dec (f * density (fluid self)) 0) as [Hm | Hm].
  - unfold pydiv in Hc.
    destruct (Req_dec_T (f * density (fluid self)
                         * specific_heat (fluid self)) 0);
      [discriminate Hc |].
    injection Hc as Ec. subst c. symmetry. exact Ed.
  - injection Hc as Ec. subst c. symmetry. exact Ed.
Qed.

Lemma outer_loop_S (self : NaturalCirculationSimulator) (n : nat)
      (fr : option R) (d : R) :
  outer_loop self (S n) fr d
  = (p <- outer_body self d ;; outer_loop self n (Some (fst p)) (snd p)).
Proof. reflexivity. Qed.

(** Running one more pass is running the passes before it and then the body
    once. *)
Lemma outer_loop_snoc (self : NaturalCirculationSimulator) (n : nat) :
  forall fr d,
  outer_loop self (S n) fr d
  = (st <- outer_loop self n fr d ;;
     p <- outer_body self (snd st) ;;
     Ok (Some (fst p), snd p)).
Proof.
  induction n as [| n IH]; intros fr d.
  - simpl. destruct (outer_body self d) as [p | e]; reflexivity.
  - rewrite (outer_loop_S self (S n)), (outer_loop_S self n).
    destruct (outer_body self d) as [p | e]; simpl; [| reflexivity].
    apply IH.
Qed.

(** A run of [n] passes that returns is a chain of [n] bodies. *)
Lemma outer_loop_chain (self : NaturalCirculationSimulator) (n : nat) :
  forall fr0 d0 fr d,
  outer_loop self n fr0 d0 = Ok (fr, d) ->
  exists ds fs : nat -> R,
    ds O = d0 /\ ds n = d
    /\ (forall i, (i < n)%nat -> outer_body self (ds i) = Ok (fs i, ds (S i)))
    /\ (n = O -> fr = fr0)
    /\ (forall k, n = S k -> fr = Some (fs k)).
Proof.
  induction n as [| n IH]; intros fr0 d0 fr d Hl.
  - simpl in Hl. injection Hl as E1 E2. subst.
    exists (fun _ => d), (fun _ => 0). repeat split.
    + intros i Hi. lia.
    + intros k Hk. discriminate Hk.
  - rewrite outer_loop_snoc in Hl.
    apply bind_ok_inv in Hl. destruct Hl as ([fr1 d1] & Hn & Hl).
    apply bind_ok_inv in Hl. destruct Hl as ([f d'] & Hb & Hl).
    simpl in Hb, Hl. injection Hl as E1 E2. subst fr d'.
    destruct (IH fr0 d0 fr1 d1 Hn) as (ds & fs & H0 & Hlast & Hstep & _ & _).
    exists (fun i => if Nat.eqb i (S n) then d else ds i),
           (fun i => if Nat.eqb i n then f else fs i).
    repeat split.
    + simpl. assumption.
    + rewrite Nat.eqb_refl. reflexivity.
    + intros i Hi.
      destruct (Nat.eqb_spec i (S n)) as [E | _]; [lia |].
      destruct (Nat.eqb_spec i n) as [E | NE].
      * subst i. rewrite Nat.eqb_refl, Hlast. assumption.
      * destruct (Nat.eqb_spec (S i) (S n)) as [E | _]; [lia |].
        apply Hstep. lia.
    + intros E. discriminate E.
    + intros k Hk. injection Hk as Hk. subst k.
      rewrite Nat.eqb_refl. reflexivity.
Qed.

Lemma simulate_inv (self : NaturalCirculationSimulator) (t : R)
      (r : SimResult) :
  simulate self t = Ok r ->
  exists f d,
    outer_loop self 20 None 10 = Ok (Some f, d)
    /\ r = mkResult f (cooler_temp self + d) (cooler_temp self) d
             (name (fluid self)).
Proof.
  unfold simulate. intros Hs.
  apply bind_ok_inv in Hs. destruct Hs as ([fr d] & Hl & Hs).
  simpl in Hs. destruct fr as [f |]; [| discriminate Hs].
  injection Hs as Hr. exists f, d. split; [assumption |].
  symmetry. exact Hr.
Qed.

(** ** The outer loop under strictly positive inputs *)

Section PositiveCoupling.

Variable self : NaturalCirculationSimulator.
Hypothesis Hpos : positive_inputs self.
Hypothesis Hcp : 0 < specific_heat (fluid self).

Lemma outer_body_total (d : R) :
  exists f,
    calculate_flow_rate self d = Ok f
    /\ 0 < f * density (fluid self)
    /\ outer_body self d
       = Ok (f, 5 / 10 * d
                + 5 / 10 * (heater_power self
                            / (f * density (fluid self)
                               * specific_heat (fluid self)))).
Proof.
  destruct (calculate_flow_rate_total self Hpos d) as (v & _ & _ & Hf & Hp).
  pose proof (pos_rho self Hpos) as Hrho. simpl in Hrho.
  exists (v * cross_section self).
  assert (Hm : 0 < v * cross_section self * density (fluid self))
    by (apply Rmult_lt_0_compat; assumption).
  repeat split; try assumption.
  unfold outer_body. rewrite Hf. simpl.
  destruct (Rgt_dec (v * cross_section self * density (fluid self)) 0)
    as [_ | N]; [| lra].
  rewrite pydiv_ok; [reflexivity |].
  apply Rgt_not_eq. apply Rmult_lt_0_compat; assumption.
Qed.

Lemma outer_loop_total (n : nat) :
  forall fr d, exists fr' d',
    outer_loop self n fr d = Ok (fr', d')
    /\ (n <> O -> exists f, fr' = Some f).
Proof.
  induction n as [| n IH]; intros fr d.
  - exists fr, d. split; [reflexivity | intros N; contradiction].
  - rewrite outer_loop_snoc.
    destruct (IH fr d) as (fr1 & d1 & Hl & _). rewrite Hl. simpl.
    destruct (outer_body_total d1) as (f & _ & _ & Hb). rewrite Hb. simpl.
    eexists _, _. split; [reflexivity |]. intros _. eexists. reflexivity.
Qed.

Lemma simulate_total (t : R) : exists r, simulate self t = Ok r.
Proof.
  unfold simulate.
  destruct (outer_loop_total 20 None 10) as (fr & d & Hl & Hf).
  destruct Hf as (f & Ef); [discriminate |]. subst fr.
  rewrite Hl. simpl. eexists. reflexivity.
Qed.

Lemma outer_trace_positive (n : nat) :
  forall d,
  List.length (outer_trace self n d) = n
  /\ Forall (fun p => 0 < snd p * density (fluid self))
            (outer_trace self n d).
Proof.
  induction n as [| n IH]; intros d; simpl.
  - split; [reflexivity | constructor].
  - destruct (outer_body_total d) as (f & _ & Hm & Hb). rewrite Hb. simpl.
    destruct (IH (5 / 10 * d
                  + 5 / 10 * (heater_power self
                              / (f * density (fluid self)
                                 * specific_heat (fluid self)))))
      as (Hlen & Hall).
    split.
    + rewrite Hlen. reflexivity.
    + constructor; [simpl; assumption | assumption].
Qed.

End PositiveCoupling.

(** ** Bounds on fourth roots *)

Lemma quarter_of_fourth (a : R) : 0 < a -> Rpower (a ^ 4) (1 / 4) = a.
Proof.
  intros Ha. rewrite <- (Rpower_pow 4 a Ha), Rpower_mult.
  replace (INR 4 * (1 / 4)) with 1 by (simpl; lra).
  apply Rpower_1. assumption.
Qed.

Lemma quarter_lt (a x : R) : 0 < a -> 0 < x -> x < a ^ 4 -> Rpower x (1 / 4) < a.
Proof.
  intros Ha Hx Hlt. rewrite <- (quarter_of_fourth a Ha) at 1.
  apply Rlt_Rpower_l; lra.
Qed.

Lemma quarter_gt (a x : R) : 0 < a -> a ^ 4 < x -> a < Rpower x (1 / 4).
Proof.
  intros Ha Hlt. rewrite <- (quarter_of_fourth a Ha) at 1.
  apply Rlt_Rpower_l; [lra |]. split; [apply pow_lt; assumption | assumption].
Qed.

Lemma quarter_2000_bounds :
  668 / 100 < Rpower 2000 (1 / 4) < 669 / 100.
Proof.
  split.
  - apply quarter_gt; lra.
  - apply quarter_lt; lra.
Qed.

(** ** The pressure drop grows with the velocity *)

(** [f(Re) * Re^2], the part of the pressure drop that depends on the
    velocity. *)
Lemma seven_quarters (r : R) :
  0 < r -> r ^ 2 / Rpower r (1 / 4) = Rpower r (7 / 4).
Proof.
  intros Hr. replace (7 / 4) with (INR 2 + - (1 / 4)) by (simpl; lra).
  rewrite Rpower_plus, Rpower_Ropp, (Rpower_pow 2 r Hr). reflexivity.
Qed.

Lemma turbulent_term_mono (r1 r2 : R) :
  0 < r1 -> r1 < r2 ->
  r1 ^ 2 / Rpower r1 (1 / 4) < r2 ^ 2 / Rpower r2 (1 / 4).
Proof.
  intros H1 H12. rewrite !seven_quarters by lra.
  apply Rlt_Rpower_l; lra.
Qed.

Lemma quotient_above (a b c : R) : 0 < c -> a * c < b -> a < b / c.
Proof.
  intros Hc Hlt. apply (Rmult_lt_reg_r c); [assumption |].
  unfold Rdiv. rewrite Rmult_assoc, Rinv_l by lra. lra.
Qed.

Lemma quotient_below (a b c : R) : 0 < c -> b < a * c -> b / c < a.
Proof.
  intros Hc Hlt. apply (Rmult_lt_reg_r c); [assumption |].
  unfold Rdiv. rewrite Rmult_assoc, Rinv_l by lra. lra.
Qed.

Lemma turbulent_term_2000 : 590000 < 2000 ^ 2 / Rpower 2000 (1 / 4).
Proof.
  destruct quarter_2000_bounds as [Hlo Hhi].
  apply quotient_above; lra.
Qed.

Lemma friction_term_mono (r1 r2 : R) :
  0 < r1 -> r1 < r2 ->
  spec_friction r1 * r1 ^ 2 < spec_friction r2 * r2 ^ 2.
Proof.
  intros H1 H12. unfold spec_friction.
  destruct (Rlt_dec r1 2000) as [L1 | T1];
    destruct (Rlt_dec r2 2000) as [L2 | T2].
  - destruct (Rgt_dec r1 0); [| lra]. destruct (Rgt_dec r2 0); [| lra].
    replace (64 / r1 * r1 ^ 2) with (64 * r1) by (field; lra).
    replace (64 / r2 * r2 ^ 2) with (64 * r2) by (field; lra).
    lra.
  - destruct (Rgt_dec r1 0); [| lra].
    replace (64 / r1 * r1 ^ 2) with (64 * r1) by (field; lra).
    replace (316 / 1000 / Rpower r2 (1 / 4) * r2 ^ 2)
      with (316 / 1000 * (r2 ^ 2 / Rpower r2 (1 / 4)))
      by (field; pose proof (Rpower_pos r2 (1 / 4)); lra).
    assert (590000 < r2 ^ 2 / Rpower r2 (1 / 4)).
    { destruct (Rle_lt_or_eq_dec 2000 r2) as [Hlt | Heq]; [lra | |].
      - pose proof (turbulent_term_mono 2000 r2 ltac:(lra) Hlt).
        pose proof turbulent_term_2000. lra.
      - subst r2. apply turbulent_term_2000. }
    lra.
  - lra.
  - replace (316 / 1000 / Rpower r1 (1 / 4) * r1 ^ 2)
      with (316 / 1000 * (r1 ^ 2 / Rpower r1 (1 / 4)))
      by (field; pose proof (Rpower_pos r1 (1 / 4)); lra).
    replace (316 / 1000 / Rpower r2 (1 / 4) * r2 ^ 2)
      with (316 / 1000 * (r2 ^ 2 / Rpower r2 (1 / 4)))
      by (field; pose proof (Rpower_pos r2 (1 / 4)); lra).
    pose proof (turbulent_term_mono r1 r2 H1 H12). lra.
Qed.

Section DropMonotone.

Variable self : NaturalCirculationSimulator.
Hypothesis Hpos : positive_inputs self.

Lemma spec_drop_factor (v : R) :
  spec_drop self v
  = spec_friction (spec_reynolds self v) * spec_reynolds self v ^ 2
    * (4 * loop_height self / pipe_diameter self
       * (viscosity (fluid self) ^ 2
          / (2 * density (fluid self) * pipe_diameter self ^ 2))).
Proof.
  destruct Hpos as (Hr & Hm & Hd & Hh).
  unfold spec_drop. set (f := spec_friction (spec_reynolds self v)).
  unfold spec_reynolds. field. lra.
Qed.

Lemma spec_drop_mono (v1 v2 : R) :
  0 < v1 -> v1 < v2 -> spec_drop self v1 < spec_drop self v2.
Proof.
  intros H1 H12. rewrite !spec_drop_factor.
  destruct Hpos as (Hr & Hm & Hd & Hh).
  apply Rmult_lt_compat_r.
  - apply Rmult_lt_0_compat.
    + apply Rdiv_lt_0_compat; lra.
    + apply Rdiv_lt_0_compat; [apply pow_lt; assumption |].
      apply Rmult_lt_0_compat; [lra | apply pow_lt; assumption].
  - apply friction_term_mono.
    + apply spec_reynolds_pos; assumption.
    + unfold spec_reynolds. apply Rmult_lt_compat_r.
      * apply Rinv_0_lt_compat. assumption.
      * apply Rmult_lt_compat_r; [assumption |].
        apply Rmult_lt_compat_l; assumption.
Qed.

End DropMonotone.

(** ** Laminar flow in closed form *)

Section Laminar.

Variable self : NaturalCirculationSimulator.
Hypothesis Hpos : positive_inputs self.

Lemma spec_drop_laminar (v : R) :
  0 < v -> spec_reynolds self v < 2000 ->
  spec_drop self v
  = 128 * viscosity (fluid self) * loop_height self * v
    / pipe_diameter self ^ 2.
Proof.
  intros Hv Hlam. pose proof (spec_reynolds_pos self Hpos v Hv) as Hre.
  destruct Hpos as (Hr & Hm & Hd & Hh).
  unfold spec_drop, spec_friction.
  destruct (Rlt_dec (spec_reynolds self v) 2000) as [_ | N]; [| lra].
  destruct (Rgt_dec (spec_reynolds self v) 0) as [_ | N]; [| lra].
  unfold spec_reynolds. field. lra.
Qed.

Lemma velocity_loop_break (n : nat) (head v : R) :
  loop_body self head v = Ok Break ->
  velocity_loop self n head v = Ok v.
Proof.
  intros Hb. destruct n as [| n]; simpl; [reflexivity |].
  rewrite Hb. reflexivity.
Qed.

Lemma velocity_loop_next (n : nat) (head v v' : R) :
  loop_body self head v = Ok (Next v') ->
  velocity_loop self (S n) head v = velocity_loop self n head v'.
Proof. intros Hb. simpl. rewrite Hb. reflexivity. Qed.

Lemma loop_body_break (head v : R) :
  v <> 0 -> Rabs (head - spec_drop self v) < tolerance ->
  loop_body self head v = Ok Break.
Proof.
  intros Hv Hc. rewrite (loop_body_spec self Hpos) by assumption.
  destruct (Rlt_dec (Rabs (head - spec_drop self v)) tolerance);
    [reflexivity | contradiction].
Qed.

Lemma loop_body_next (head v : R) :
  v <> 0 -> tolerance <= Rabs (head - spec_drop self v) ->
  loop_body self head v = Ok (Next (spec_next self head v)).
Proof.
  intros Hv Hc. rewrite (loop_body_spec self Hpos) by assumption.
  destruct (Rlt_dec (Rabs (head - spec_drop self v)) tolerance);
    [lra | reflexivity].
Qed.

End Laminar.

(** ** [oil_sim]: a run that never settles *)

Lemma oil_positive : positive_inputs oil_sim.
Proof. unfold positive_inputs. simpl. lra. Qed.

Lemma oil_drop (v : R) : 0 < v -> v < 62 -> spec_drop oil_sim v = 128 * v.
Proof.
  intros Hv Hhi. rewrite (spec_drop_laminar oil_sim oil_positive) by
    (try assumption; unfold spec_reynolds; simpl; lra).
  simpl. field.
Qed.

Lemma oil_head_low : pressure_head_of oil_sim dt_low = 192 / 100000.
Proof.
  unfold pressure_head_of, g_accel, beta, dt_low. simpl. field.
Qed.

Lemma oil_head_high : pressure_head_of oil_sim dt_high = 128 / 10.
Proof.
  unfold pressure_head_of, g_accel, beta, dt_high. simpl. field.
Qed.

Lemma oil_next (head v : R) :
  0 < v -> v < 62 ->
  spec_next oil_sim head v
  = Rmax (v + (head - 128 * v) / (128 * v)) (1 / 100000).
Proof.
  intros Hv Hhi. unfold spec_next. rewrite oil_drop by assumption.
  simpl. f_equal. f_equal. field. lra.
Qed.

Lemma oil_step_init :
  loop_body oil_sim (192 / 100000) v_init = Ok (Next v_floor).
Proof.
  unfold v_init, v_floor.
  rewrite (loop_body_next oil_sim oil_positive).
  - rewrite oil_next by lra. rewrite Rmax_right; [reflexivity | lra].
  - lra.
  - rewrite oil_drop by lra. unfold tolerance.
    rewrite Rabs_left by lra. lra.
Qed.

Lemma oil_step_floor :
  loop_body oil_sim (192 / 100000) v_floor = Ok (Next (50001 / 100000)).
Proof.
  unfold v_floor.
  rewrite (loop_body_next oil_sim oil_positive).
  - rewrite oil_next by lra. rewrite Rmax_left; [| lra].
    do 2 f_equal. lra.
  - lra.
  - rewrite oil_drop by lra. unfold tolerance.
    rewrite Rabs_right by lra. lra.
Qed.

Lemma oil_step_top :
  loop_body oil_sim (192 / 100000) (50001 / 100000) = Ok (Next v_floor).
Proof.
  unfold v_floor.
  rewrite (loop_body_next oil_sim oil_positive).
  - rewrite oil_next by lra. rewrite Rmax_right; [reflexivity | lra].
  - lra.
  - rewrite oil_drop by lra. unfold tolerance.
    rewrite Rabs_left by lra. lra.
Qed.

(** From the floor the velocity alternates between the floor and
    [0.50001]. *)
Lemma oil_alternates (n : nat) :
  velocity_loop oil_sim (2 * n) (192 / 100000) v_floor = Ok v_floor
  /\ velocity_loop oil_sim (2 * n + 1) (192 / 100000) v_floor
     = Ok (50001 / 100000).
Proof.
  induction n as [| n [IHe IHo]].
  - split; [reflexivity |].
    change (2 * 0 + 1)%nat with 1%nat.
    rewrite (velocity_loop_next oil_sim 0 _ _ _ oil_step_floor). reflexivity.
  - replace (2 * S n)%nat with (S (S (2 * n))) by lia.
    replace (S (S (2 * n)) + 1)%nat with (S (S (2 * n + 1))) by lia.
    split.
    + rewrite (velocity_loop_next oil_sim _ _ _ _ oil_step_floor).
      rewrite (velocity_loop_next oil_sim _ _ _ _ oil_step_top).
      assumption.
    + rewrite (velocity_loop_next oil_sim _ _ _ _ oil_step_floor).
      rewrite (velocity_loop_next oil_sim _ _ _ _ oil_step_top).
      assumption.
Qed.

Lemma oil_flow_low :
  calculate_flow_rate oil_sim dt_low
  = Ok (50001 / 100000 * cross_section oil_sim).
Proof.
  rewrite (calculate_flow_rate_loop oil_sim oil_positive), oil_head_low.
  unfold max_iter.
  rewrite (velocity_loop_next oil_sim 99 _ _ _ oil_step_init).
  change 99%nat with (2 * 49 + 1)%nat.
  destruct (oil_alternates 49) as [_ Ho]. rewrite Ho. reflexivity.
Qed.

Lemma oil_flow_high :
  calculate_flow_rate oil_sim dt_high = Ok (v_init * cross_section oil_sim).
Proof.
  rewrite (calculate_flow_rate_loop oil_sim oil_positive), oil_head_high.
  rewrite (velocity_loop_break oil_sim); [reflexivity |].
  apply (loop_body_break oil_sim oil_positive).
  - unfold v_init. lra.
  - unfold v_init, tolerance. rewrite oil_drop by lra.
    replace (128 / 10 - 128 * (1 / 10)) with 0 by lra.
    rewrite Rabs_R0. lra.
Qed.

(** ** [thin_sim]: one update reaches the balance point *)

Lemma thin_positive : positive_inputs thin_sim.
Proof. unfold positive_inputs. simpl. lra. Qed.

Lemma thin_drop (v : R) : 0 < v -> v < 6 -> spec_drop thin_sim v = 128 / 10 * v.
Proof.
  intros Hv Hhi. rewrite (spec_drop_laminar thin_sim thin_positive) by
    (try assumption; unfold spec_reynolds; simpl; lra).
  simpl. field.
Qed.

Lemma thin_head (d : R) :
  pressure_head_of thin_sim d = 659232 / 10000000 * d.
Proof. unfold pressure_head_of, g_accel, beta. simpl. field. Qed.

Lemma thin_velocity (d : R) :
  5 < d <= 10 ->
  velocity_loop thin_sim max_iter (pressure_head_of thin_sim d) v_init
  = Ok (515025 / 100000000 * d)
  /\ loop_body thin_sim (pressure_head_of thin_sim d)
       (515025 / 100000000 * d) = Ok Break.
Proof.
  intros Hd. rewrite thin_head.
  assert (Hb : loop_body thin_sim (659232 / 10000000 * d)
                 (515025 / 100000000 * d) = Ok Break).
  { apply (loop_body_break thin_sim thin_positive); [lra |].
    rewrite thin_drop by lra. unfold tolerance.
    replace (659232 / 10000000 * d - 128 / 10 * (515025 / 100000000 * d))
      with 0 by lra.
    rewrite Rabs_R0. lra. }
  split; [| exact Hb].
  unfold max_iter.
  rewrite (velocity_loop_next thin_sim 99 _ v_init (515025 / 100000000 * d)).
  - apply velocity_loop_break. exact Hb.
  - unfold v_init.
    rewrite (loop_body_next thin_sim thin_positive).
    + do 2 f_equal. unfold spec_next. rewrite thin_drop by lra. simpl.
      rewrite Rmax_left; lra.
    + lra.
    + rewrite thin_drop by lra. unfold tolerance.
      rewrite Rabs_left by lra. lra.
Qed.

Lemma thin_flow (d : R) :
  5 < d <= 10 ->
  calculate_flow_rate thin_sim d
  = Ok (515025 / 100000000 * d * cross_section thin_sim).
Proof.
  intros Hd. rewrite (calculate_flow_rate_loop thin_sim thin_positive).
  destruct (thin_velocity d Hd) as [Hl _]. rewrite Hl. reflexivity.
Qed.

(** With the heater power of [thin_sim] the relaxation step is Newton's
    iteration for the square root of 25. *)
Lemma thin_outer_body (d : R) :
  5 < d <= 10 ->
  outer_body thin_sim d
  = Ok (515025 / 100000000 * d * cross_section thin_sim,
        5 / 10 * d + 5 / 10 * (25 / d)).
Proof.
  intros Hd. unfold outer_body. rewrite thin_flow by assumption. simpl.
  pose proof PI_RGT_0 as Hpi.
  unfold cross_section. simpl.
  destruct (Rgt_dec (515025 / 100000000 * d * (PI * (1 / 2 * (1 / 2 * 1))) * 32) 0)
    as [_ | N]; [| exfalso; apply N; nra].
  rewrite pydiv_ok by nra. simpl. do 2 f_equal. f_equal. field. lra.
Qed.

Lemma newton_step_bounds (d : R) :
  5 < d <= 10 ->
  5 < 5 / 10 * d + 5 / 10 * (25 / d) < d.
Proof.
  intros Hd.
  assert (E : 25 / d = 25 * / d) by reflexivity.
  assert (Hinv : 0 < / d) by (apply Rinv_0_lt_compat; lra).
  assert (Hone : d * / d = 1) by (apply Rinv_r; lra).
  rewrite E. split; nra.
Qed.

Lemma thin_outer_loop (n : nat) :
  forall fr d, 5 < d <= 10 ->
  exists fr' d', outer_loop thin_sim n fr d = Ok (fr', d') /\ 5 < d' <= 10.
Proof.
  induction n as [| n IH]; intros fr d Hd.
  - exists fr, d. split; [reflexivity | assumption].
  - rewrite outer_loop_S, thin_outer_body by assumption. simpl.
    apply IH. pose proof (newton_step_bounds d Hd). lra.
Qed.

Lemma outer_trace_length (self : NaturalCirculationSimulator) (n : nat) :
  forall fr d st,
  outer_loop self n fr d = Ok st -> List.length (outer_trace self n d) = n.
Proof.
  induction n as [| n IH]; intros fr d st Hl.
  - reflexivity.
  - rewrite outer_loop_S in Hl. simpl.
    destruct (outer_body self d) as [p | e]; simpl in Hl; [| discriminate Hl].
    simpl. f_equal. eapply IH. exact Hl.
Qed.

Lemma reference_positive : positive_inputs reference_sim.
Proof. unfold positive_inputs. simpl. lra. Qed.

Lemma reference_cp : 0 < specific_heat (fluid reference_sim).
Proof. simpl. lra. Qed.

(** * The claims *)

(** C1, in exact arithmetic.  With strictly positive density, viscosity,
    diameter and height, and
    for every temperature difference, every velocity at which the loop of
    [calculate_flow_rate] computes Re and f is at least [1e-5]; the function
    returns the final velocity times the cross section, and that flow rate is
    strictly positive. *)
Theorem velocity_floor_invariant (self : NaturalCirculationSimulator)
        (delta_t : R) :
  positive_inputs self ->
  Forall (fun v => v_floor <= v)
         (velocity_trace self max_iter (pressure_head_of self delta_t) v_init)
  /\ exists v,
       velocity_loop self max_iter (pressure_head_of self delta_t) v_init
       = Ok v
       /\ v_floor <= v
       /\ calculate_flow_rate self delta_t = Ok (v * cross_section self)
       /\ 0 < v * cross_section self.
Proof.
  intros Hpos. split.
  - apply velocity_trace_floor; [assumption | apply v_init_floor].
  - apply calculate_flow_rate_total. assumption.
Qed.

Lemma velocity_floor_invariant_witness :
  positive_inputs reference_sim
  /\ (Forall (fun v => v_floor <= v)
        (velocity_trace reference_sim max_iter
           (pressure_head_of reference_sim (-5)) v_init)
      /\ exists v,
           velocity_loop reference_sim max_iter
             (pressure_head_of reference_sim (-5)) v_init = Ok v
           /\ v_floor <= v
           /\ calculate_flow_rate reference_sim (-5)
              = Ok (v * cross_section reference_sim)
           /\ 0 < v * cross_section reference_sim).
Proof.
  split.
  - exact reference_positive.
  - apply (velocity_floor_invariant reference_sim (-5)).
    unfold positive_inputs. simpl. lra.
Defined.

(** C1 fails as stated on Python floats: with Water, a height of 2 and a
    strictly positive pipe diameter of [2^-700], the square in [__init__]
    underflows, the cross section is [0.0], and the flow rate returned for
    [delta_t = 10] is [0.0]. *)
Lemma tiny_pipe_zero_flow :
  (0 <? 0x1p-700)%float = true
  /\ Binary64.tiny_pipe_flow_rate 10%float = Ok 0%float.
Proof. split; vm_compute; reflexivity. Qed.

(** C2. [simulate] returns the same result for any two values of
    [initial_temp]: the parameter is never read, and what is returned is
    fixed by the 20 passes that start from the constant [10]. *)
Theorem initial_temp_ignored (self : NaturalCirculationSimulator)
        (t1 t2 : R) :
  simulate self t1 = simulate self t2
  /\ forall r,
       simulate self t1 = Ok r
       <-> exists f d,
             outer_loop self 20 None 10 = Ok (Some f, d)
             /\ r = mkResult f (cooler_temp self + d) (cooler_temp self) d
                      (name (fluid self)).
Proof.
  split; [reflexivity |].
  intros r. split.
  - apply simulate_inv.
  - intros (f & d & Hl & Hr). unfold simulate. rewrite Hl. simpl.
    rewrite Hr. reflexivity.
Qed.

(** C4. A call of [simulate] that returns has made exactly 20 passes from
    [delta_t = 10]: pass [i] calls [calculate_flow_rate] on the current
    [delta_t], takes [Q / (mass_flow * c_p)] when [mass_flow = flow_rate * rho]
    is positive and the current [delta_t] otherwise, and replaces [delta_t]
    by the mean of the two. *)
Theorem twenty_relaxation_passes (self : NaturalCirculationSimulator)
        (t : R) (r : SimResult) :
  simulate self t = Ok r ->
  List.length (outer_trace self 20 10) = 20%nat
  /\ exists ds fs : nat -> R,
       ds O = 10
       /\ (forall i, (i < 20)%nat ->
             calculate_flow_rate self (ds i) = Ok (fs i)
             /\ ds (S i)
                = 5 / 10 * ds i
                  + 5 / 10 * (if Rgt_dec (fs i * density (fluid self)) 0
                              then heater_power self
                                   / (fs i * density (fluid self)
                                      * specific_heat (fluid self))
                              else ds i))
       /\ temperature_difference_C r = ds 20%nat
       /\ flow_rate_m3_s r = fs 19%nat.
Proof.
  intros Hs. apply simulate_inv in Hs. destruct Hs as (f & d & Hl & Hr).
  split; [eapply outer_trace_length; exact Hl |].
  destruct (outer_loop_chain self 20 None 10 (Some f) d Hl)
    as (ds & fs & H0 & H20 & Hstep & _ & Hfr).
  exists ds, fs. repeat split.
  - assumption.
  - apply (outer_body_inv self (ds i) (fs i) (ds (S i))). apply Hstep.
    assumption.
  - apply (outer_body_inv self (ds i) (fs i) (ds (S i))). apply Hstep.
    assumption.
  - subst r. simpl. symmetry. assumption.
  - subst r. simpl. specialize (Hfr 19%nat eq_refl).
    injection Hfr as E. assumption.
Qed.

(** C5. In a record returned by [simulate] the cold leg is the cooler
    temperature, the hot leg is the cooler temperature plus the reported
    temperature difference, the fluid is the fluid's name, and the flow rate
    and the temperature difference are the two values the loop ends with. *)
Theorem result_record_fields (self : NaturalCirculationSimulator)
        (t : R) (r : SimResult) :
  simulate self t = Ok r ->
  cold_leg_temp_C r = cooler_temp self
  /\ hot_leg_temp_C r = cooler_temp self + temperature_difference_C r
  /\ fluid_name r = name (fluid self)
  /\ outer_loop self 20 None 10
     = Ok (Some (flow_rate_m3_s r), temperature_difference_C r).
Proof.
  intros Hs. apply simulate_inv in Hs. destruct Hs as (f & d & Hl & Hr).
  subst r. simpl. repeat split. assumption.
Qed.

Lemma twenty_relaxation_passes_witness :
  exists r,
    simulate reference_sim 20 = Ok r
    /\ (List.length (outer_trace reference_sim 20 10) = 20%nat
        /\ exists ds fs : nat -> R,
             ds O = 10
             /\ (forall i, (i < 20)%nat ->
                   calculate_flow_rate reference_sim (ds i) = Ok (fs i)
                   /\ ds (S i)
                      = 5 / 10 * ds i
                        + 5 / 10
                          * (if Rgt_dec
                                  (fs i * density (fluid reference_sim)) 0
                             then heater_power reference_sim
                                  / (fs i * density (fluid reference_sim)
                                     * specific_heat (fluid reference_sim))
                             else ds i))
             /\ temperature_difference_C r = ds 20%nat
             /\ flow_rate_m3_s r = fs 19%nat).
Proof.
  destruct (simulate_total reference_sim reference_positive reference_cp 20)
    as [r Hr].
  exists r. split.
  - exact Hr.
  - exact (twenty_relaxation_passes reference_sim 20 r Hr).
Defined.

Lemma result_record_fields_witness :
  exists r,
    simulate reference_sim 20 = Ok r
    /\ (cold_leg_temp_C r = cooler_temp reference_sim
        /\ hot_leg_temp_C r
           = cooler_temp reference_sim + temperature_difference_C r
        /\ fluid_name r = name (fluid reference_sim)
        /\ outer_loop reference_sim 20 None 10
           = Ok (Some (flow_rate_m3_s r), temperature_difference_C r)).
Proof.
  destruct (simulate_total reference_sim reference_positive reference_cp 20)
    as [r Hr].
  exists r. split.
  - exact Hr.
  - exact (result_record_fields reference_sim 20 r Hr).
Defined.

(** C6. In every pass of the loop of [calculate_flow_rate] that completes,
    at the current velocity [v]: Re is [rho * v * D / mu]; below 2000 the
    friction factor is [64 / Re] when Re is positive and [0.064] otherwise,
    and from 2000 on it is [0.316 / Re^0.25]; the pressure drop is
    [f * (loop_length / D) * (rho * v^2 / 2)] with [loop_length = 4 * H]; the
    loop stops exactly when the residual is below the tolerance; and the
    buoyancy head is [9.81 * rho * 0.00021 * delta_t * H]. *)
Theorem friction_and_drop_formulas (self : NaturalCirculationSimulator)
        (delta_t v : R) (c : loop_ctl) :
  loop_body self (pressure_head_of self delta_t) v = Ok c ->
  pressure_head_of self delta_t
  = 981 / 100 * density (fluid self) * (21 / 100000) * delta_t
    * loop_height self
  /\ loop_length self = 4 * loop_height self
  /\ exists re f drop,
       reynolds_of self v = Ok re
       /\ re = density (fluid self) * v * pipe_diameter self
               / viscosity (fluid self)
       /\ friction_factor_of re = Ok f
       /\ (re < 2000 -> 0 < re -> f = 64 / re)
       /\ (re < 2000 -> re <= 0 -> f = 64 / 1000)
       /\ (2000 <= re -> f = 316 / 1000 / Rpower re (1 / 4))
       /\ pressure_drop_of self f v = Ok drop
       /\ drop = f * (loop_length self / pipe_diameter self)
                 * (density (fluid self) * v ^ 2 / 2)
       /\ (c = Break
           <-> Rabs (pressure_head_of self delta_t - drop) < tolerance).
Proof.
  intros Hb. split; [reflexivity |]. split; [reflexivity |].
  unfold loop_body in Hb.
  apply bind_ok_inv in Hb. destruct Hb as (re & Hre & Hb).
  apply bind_ok_inv in Hb. destruct Hb as (f & Hf & Hb).
  apply bind_ok_inv in Hb. destruct Hb as (drop & Hdrop & Hb).
  exists re, f, drop.
  assert (Ere : re = density (fluid self) * v * pipe_diameter self
                     / viscosity (fluid self)).
  { unfold reynolds_of, pydiv in Hre.
    destruct (Req_dec_T (viscosity (fluid self)) 0); [discriminate Hre |].
    injection Hre as E. symmetry. exact E. }
  assert (Ef : f = spec_friction re).
  { rewrite friction_factor_of_spec in Hf. injection Hf as E.
    symmetry. exact E. }
  assert (Edrop : drop = f * (loop_length self / pipe_diameter self)
                         * (density (fluid self) * v ^ 2 / 2)).
  { unfold pressure_drop_of, pydiv in Hdrop.
    destruct (Req_dec_T (pipe_diameter self) 0); [discriminate Hdrop |].
    simpl in Hdrop. injection Hdrop as E. rewrite <- E. lra. }
  repeat split; try assumption.
  - intros Hlam Hp. rewrite Ef. unfold spec_friction.
    destruct (Rlt_dec re 2000); [| lra].
    destruct (Rgt_dec re 0); [reflexivity | lra].
  - intros Hlam Hn. rewrite Ef. unfold spec_friction.
    destruct (Rlt_dec re 2000); [| lra].
    destruct (Rgt_dec re 0); [lra | reflexivity].
  - intros Hturb. rewrite Ef. unfold spec_friction.
    destruct (Rlt_dec re 2000); [lra | reflexivity].
  - intros Ec. subst c.
    destruct (Rlt_dec (Rabs (pressure_head_of self delta_t - drop)) tolerance)
      as [Hc | Hc]; [assumption |].
    apply bind_ok_inv in Hb. destruct Hb as (dv & _ & Hb). discriminate Hb.
  - intros Hc.
    destruct (Rlt_dec (Rabs (pressure_head_of self delta_t - drop)) tolerance)
      as [_ | N]; [| contradiction].
    injection Hb as E. symmetry. exact E.
Qed.

Lemma friction_and_drop_formulas_witness :
  exists c,
    loop_body reference_sim (pressure_head_of reference_sim 10) v_init = Ok c
    /\ (pressure_head_of reference_sim 10
        = 981 / 100 * density (fluid reference_sim) * (21 / 100000) * 10
          * loop_height reference_sim
        /\ loop_length reference_sim = 4 * loop_height reference_sim
        /\ exists re f drop,
             reynolds_of reference_sim v_init = Ok re
             /\ re = density (fluid reference_sim) * v_init
                     * pipe_diameter reference_sim
                     / viscosity (fluid reference_sim)
             /\ friction_factor_of re = Ok f
             /\ (re < 2000 -> 0 < re -> f = 64 / re)
             /\ (re < 2000 -> re <= 0 -> f = 64 / 1000)
             /\ (2000 <= re -> f = 316 / 1000 / Rpower re (1 / 4))
             /\ pressure_drop_of reference_sim f v_init = Ok drop
             /\ drop = f * (loop_length reference_sim
                            / pipe_diameter reference_sim)
                       * (density (fluid reference_sim) * v_init ^ 2 / 2)
             /\ (c = Break
                 <-> Rabs (pressure_head_of reference_sim 10 - drop)
                     < tolerance)).
Proof.
  pose proof (loop_body_spec reference_sim reference_positive
                (pressure_head_of reference_sim 10) v_init
                (floor_nonzero v_init v_init_floor)) as Hb.
  eexists. split.
  - exact Hb.
  - exact (friction_and_drop_formulas reference_sim 10 v_init _ Hb).
Defined.

(** ** The lag between the reported flow rate and temperature difference *)

Lemma thin_simulate_lag (t : R) :
  exists d19 r,
    5 < d19 <= 10
    /\ simulate thin_sim t = Ok r
    /\ flow_rate_m3_s r
       = 515025 / 100000000 * d19 * cross_section thin_sim
    /\ temperature_difference_C r = 5 / 10 * d19 + 5 / 10 * (25 / d19).
Proof.
  destruct (thin_outer_loop 19 None 10 ltac:(lra)) as (fr & d19 & Hl & Hd).
  exists d19. eexists. split; [assumption |].
  unfold simulate. rewrite (outer_loop_snoc thin_sim 19), Hl. simpl.
  rewrite thin_outer_body by assumption. simpl.
  split; [reflexivity |]. split; reflexivity.
Qed.

(** C3. The flow rate in the record returned by [simulate] is
    [calculate_flow_rate] of the temperature difference the 20th pass starts
    from, which the pass then relaxes into the reported one; and there is a
    simulator whose reported flow rate differs from [calculate_flow_rate] of
    its reported temperature difference. *)
Theorem flow_rate_lags_one_pass :
  (forall (self : NaturalCirculationSimulator) (t : R) (r : SimResult),
     simulate self t = Ok r ->
     exists fr d19,
       outer_loop self 19 None 10 = Ok (fr, d19)
       /\ calculate_flow_rate self d19 = Ok (flow_rate_m3_s r)
       /\ outer_body self d19
          = Ok (flow_rate_m3_s r, temperature_difference_C r))
  /\ exists (self : NaturalCirculationSimulator) (r : SimResult) (q : R),
       simulate self 20 = Ok r
       /\ calculate_flow_rate self (temperature_difference_C r) = Ok q
       /\ q < flow_rate_m3_s r.
Proof.
  split.
  - intros self t r Hs. apply simulate_inv in Hs.
    destruct Hs as (f & d & Hl & Hr).
    rewrite (outer_loop_snoc self 19) in Hl.
    apply bind_ok_inv in Hl. destruct Hl as ([fr d19] & H19 & Hl).
    apply bind_ok_inv in Hl. destruct Hl as ([f' d'] & Hb & Hl).
    simpl in Hb, Hl. injection Hl as E1 E2. subst f' d' r. simpl.
    exists fr, d19. split; [assumption |]. split; [| assumption].
    apply (outer_body_inv self d19 f d). assumption.
  - destruct (thin_simulate_lag 20) as (d19 & r & Hd & Hs & Hf & Ht).
    pose proof (newton_step_bounds d19 Hd) as Hn.
    exists thin_sim, r, (515025 / 100000000 * temperature_difference_C r
                         * cross_section thin_sim).
    split; [assumption |]. split.
    + apply thin_flow. rewrite Ht. lra.
    + rewrite Hf, Ht.
      pose proof (cross_section_pos thin_sim thin_positive) as Hc.
      apply Rmult_lt_compat_r; [assumption |]. lra.
Qed.

(** ** Monotonicity *)

Lemma loop_body_break_inv (self : NaturalCirculationSimulator)
      (head v : R) :
  positive_inputs self -> v <> 0 ->
  loop_body self head v = Ok Break ->
  Rabs (head - spec_drop self v) < tolerance.
Proof.
  intros Hpos Hv Hb. rewrite (loop_body_spec self Hpos) in Hb by assumption.
  destruct (Rlt_dec (Rabs (head - spec_drop self v)) tolerance) as [Hc | Hc].
  - assumption.
  - discriminate Hb.
Qed.

Lemma velocity_loop_result_floor (self : NaturalCirculationSimulator)
      (head v : R) :
  positive_inputs self ->
  velocity_loop self max_iter head v_init = Ok v -> v_floor <= v.
Proof.
  intros Hpos Hl.
  destruct (velocity_loop_floor self Hpos max_iter head v_init v_init_floor)
    as (v' & Hl' & Hv').
  rewrite Hl in Hl'. injection Hl' as E. subst v'. assumption.
Qed.

(** C7, as the code has it in exact arithmetic.  With strictly positive
    inputs, when both calls return a velocity that passes
    the tolerance test and the second buoyancy head exceeds the first by at
    least twice the tolerance, the second flow rate is strictly larger. *)
Theorem settled_flow_rate_monotone (self : NaturalCirculationSimulator)
        (dt1 dt2 v1 v2 : R) :
  positive_inputs self ->
  velocity_loop self max_iter (pressure_head_of self dt1) v_init = Ok v1 ->
  loop_body self (pressure_head_of self dt1) v1 = Ok Break ->
  velocity_loop self max_iter (pressure_head_of self dt2) v_init = Ok v2 ->
  loop_body self (pressure_head_of self dt2) v2 = Ok Break ->
  pressure_head_of self dt1 + 2 * tolerance <= pressure_head_of self dt2 ->
  exists q1 q2,
    calculate_flow_rate self dt1 = Ok q1
    /\ calculate_flow_rate self dt2 = Ok q2
    /\ q1 < q2.
Proof.
  intros Hpos Hl1 Hb1 Hl2 Hb2 Hgap.
  pose proof (velocity_loop_result_floor self _ v1 Hpos Hl1) as Hv1.
  pose proof (velocity_loop_result_floor self _ v2 Hpos Hl2) as Hv2.
  pose proof v_floor_pos as Hfl.
  apply (loop_body_break_inv self _ v1 Hpos) in Hb1; [| lra].
  apply (loop_body_break_inv self _ v2 Hpos) in Hb2; [| lra].
  apply Rabs_def2 in Hb1. apply Rabs_def2 in Hb2.
  assert (Hdrop : spec_drop self v1 < spec_drop self v2) by lra.
  assert (Hv : v1 < v2).
  { destruct (Rlt_le_dec v1 v2) as [Hlt | Hge]; [assumption |].
    exfalso. destruct (Rle_lt_or_eq_dec v2 v1 Hge) as [Hlt | Heq].
    - pose proof (spec_drop_mono self Hpos v2 v1 ltac:(lra) Hlt). lra.
    - subst v2. lra. }
  exists (v1 * cross_section self), (v2 * cross_section self).
  rewrite !(calculate_flow_rate_loop self Hpos), Hl1, Hl2. simpl.
  split; [reflexivity |]. split; [reflexivity |].
  apply Rmult_lt_compat_r; [apply cross_section_pos |]; assumption.
Qed.

Lemma settled_flow_rate_monotone_witness :
  positive_inputs thin_sim
  /\ pressure_head_of thin_sim 6 + 2 * tolerance
     <= pressure_head_of thin_sim 10
  /\ exists q1 q2,
       calculate_flow_rate thin_sim 6 = Ok q1
       /\ calculate_flow_rate thin_sim 10 = Ok q2
       /\ q1 < q2.
Proof.
  assert (Hgap : pressure_head_of thin_sim 6 + 2 * tolerance
                 <= pressure_head_of thin_sim 10).
  { rewrite !thin_head. unfold tolerance. lra. }
  split; [exact thin_positive |]. split; [exact Hgap |].
  destruct (thin_velocity 6 ltac:(lra)) as [Hl1 Hb1].
  destruct (thin_velocity 10 ltac:(lra)) as [Hl2 Hb2].
  exact (settled_flow_rate_monotone thin_sim 6 10 _ _ thin_positive
           Hl1 Hb1 Hl2 Hb2 Hgap).
Defined.

(** C7 fails as stated: on [oil_sim] the smaller temperature difference
    [dt_low] never settles and ends on [0.50001] m/s, while the larger one
    [dt_high] balances at the first test and returns [0.1] m/s. *)
Lemma flow_rate_not_monotone :
  positive_inputs oil_sim
  /\ dt_low <= dt_high
  /\ exists q1 q2,
       calculate_flow_rate oil_sim dt_low = Ok q1
       /\ calculate_flow_rate oil_sim dt_high = Ok q2
       /\ q2 < q1.
Proof.
  split; [exact oil_positive |]. split.
  - unfold dt_low, dt_high. lra.
  - exists (50001 / 100000 * cross_section oil_sim),
           (v_init * cross_section oil_sim).
    split; [exact oil_flow_low |]. split; [exact oil_flow_high |].
    pose proof (cross_section_pos oil_sim oil_positive) as Hc.
    unfold v_init. apply Rmult_lt_compat_r; [assumption | lra].
Qed.

(** On binary64 numbers the two runs end the same way: [0.50001 * pi / 4]
    for the smaller temperature difference and [0.1 * pi / 4] for the larger
    one. *)
Lemma oil_flow_binary64 :
  Binary64.oil_flow_rate (200 / 6867)%float = Ok 0.39270693568035797%float
  /\ Binary64.oil_flow_rate (4000000 / 20601)%float
     = Ok 0.078539816339744828%float.
Proof. split; vm_compute; reflexivity. Qed.

(** ** The regime switch *)

Lemma friction_at_switch :
  friction_factor_of 2000 = Ok (316 / 1000 / Rpower 2000 (1 / 4)).
Proof.
  rewrite friction_factor_of_spec. unfold spec_friction.
  destruct (Rlt_dec 2000 2000); [lra | reflexivity].
Qed.

Lemma friction_below_switch (re : R) :
  0 < re < 2000 -> friction_factor_of re = Ok (64 / re).
Proof.
  intros Hre. rewrite friction_factor_of_spec. unfold spec_friction.
  destruct (Rlt_dec re 2000); [| lra].
  destruct (Rgt_dec re 0); [reflexivity | lra].
Qed.

Lemma blasius_at_switch :
  147 / 100 * (64 / 2000) < 316 / 1000 / Rpower 2000 (1 / 4)
  < 148 / 100 * (64 / 2000).
Proof.
  destruct quarter_2000_bounds as [Hlo Hhi]. split.
  - apply quotient_above; lra.
  - apply quotient_below; lra.
Qed.

(** C8, as the code has it.  At Re = 2000 the code takes the Blasius value,
    below 2000 it takes [64 / Re], and the Blasius value at 2000 lies between
    1.47 and 1.48 times the laminar value [64 / 2000]: the two formulas
    differ by a bounded amount, a jump of about 48 percent. *)
Theorem regime_gap_bounded :
  friction_factor_of 2000 = Ok (316 / 1000 / Rpower 2000 (1 / 4))
  /\ (forall re, 0 < re < 2000 -> friction_factor_of re = Ok (64 / re))
  /\ 147 / 100 * (64 / 2000) < 316 / 1000 / Rpower 2000 (1 / 4)
     < 148 / 100 * (64 / 2000).
Proof.
  split; [exact friction_at_switch |].
  split; [exact friction_below_switch | exact blasius_at_switch].
Qed.

(** C8 fails as stated: the friction factors the code computes at Re = 1999
    and at Re = 2000 are further apart than 45 percent of the smaller one. *)
Lemma regime_gap_not_small :
  exists f_below f_at,
    friction_factor_of 1999 = Ok f_below
    /\ friction_factor_of 2000 = Ok f_at
    /\ 45 / 100 * f_below < f_at - f_below.
Proof.
  destruct blasius_at_switch as [Hlo _].
  exists (64 / 1999), (316 / 1000 / Rpower 2000 (1 / 4)).
  split; [apply friction_below_switch; lra |].
  split; [exact friction_at_switch |]. lra.
Qed.

(** ** Running out of iterations *)






(** ** The fallback branches *)

(** C10, in exact arithmetic.  With strictly positive density, viscosity,
    specific heat, diameter
    and height, for every temperature difference and heater power: at the
    first estimate and at every pass of the inner loop the velocity is not
    zero and Re is strictly positive, so neither [f = 0.064] nor the fixed
    step [0.01] is taken; and each of the 20 passes of [simulate] finds a
    strictly positive mass flow, so [delta_t_calc = delta_t] is not taken. *)
Theorem fallbacks_unreachable (self : NaturalCirculationSimulator)
        (delta_t : R) :
  positive_inputs self ->
  0 < specific_heat (fluid self) ->
  Forall (fun v => v <> 0 /\ exists re, reynolds_of self v = Ok re /\ 0 < re)
         (v_init :: velocity_trace self max_iter
                      (pressure_head_of self delta_t) v_init)
  /\ List.length (outer_trace self 20 10) = 20%nat
  /\ Forall (fun p => 0 < snd p * density (fluid self))
            (outer_trace self 20 10).
Proof.
  intros Hpos Hcp. split.
  - assert (Hall : Forall (fun v => v_floor <= v)
                     (v_init :: velocity_trace self max_iter
                                  (pressure_head_of self delta_t) v_init)).
    { constructor; [apply v_init_floor |].
      apply velocity_trace_floor; [assumption | apply v_init_floor]. }
    apply (Forall_impl _ (P := fun v => v_floor <= v)); [| exact Hall].
    intros v Hv. pose proof v_floor_pos as Hfl. split; [lra |].
    exists (spec_reynolds self v). split.
    + apply reynolds_of_spec. assumption.
    + apply spec_reynolds_pos; [assumption | lra].
  - apply outer_trace_positive; assumption.
Qed.

Lemma fallbacks_unreachable_witness :
  positive_inputs reference_sim
  /\ 0 < specific_heat (fluid reference_sim)
  /\ Forall (fun v => v <> 0
                      /\ exists re,
                           reynolds_of reference_sim v = Ok re /\ 0 < re)
            (v_init :: velocity_trace reference_sim max_iter
                         (pressure_head_of reference_sim 0) v_init)
  /\ List.length (outer_trace reference_sim 20 10) = 20%nat
  /\ Forall (fun p => 0 < snd p * density (fluid reference_sim))
            (outer_trace reference_sim 20 10).
Proof.
  assert (Hpos : positive_inputs reference_sim)
    by (unfold positive_inputs; simpl; lra).
  assert (Hcp : 0 < specific_heat (fluid reference_sim)) by (simpl; lra).
  split; [exact Hpos |]. split; [exact Hcp |].
  exact (fallbacks_unreachable reference_sim 0 Hpos Hcp).
Defined.

(** The run of [main] on binary64 numbers: the hot leg is the cold leg plus
    the reported temperature difference. *)
Lemma reference_run_binary64 :
  Binary64.reference_run
  = Ok (Binary64.mkResult 0.00010436968329916587%float
          (20 + 2.2956784878618315)%float 20%float
          2.2956784878618315%float "Water").
Proof. vm_compute. reflexivity. Qed.

(** C10 fails as stated on Python floats: with the strictly positive
    density [1e-320] the first update clamps the velocity to [1e-5], where
    [rho * v] underflows, Re is [0.0] and the friction factor is the fallback
    [0.064]; the mass flow of the returned flow rate underflows to [0.0], the
    test [mass_flow > 0] fails, and [simulate] reports the seed [10]. *)
Lemma faint_fluid_takes_fallbacks :
  exists self flow r,
    Binary64.init Binary64.faint_fluid 2 0.05 1000 20 = Ok self
    /\ (0 <? Binary64.density (Binary64.fluid self))%float = true
    /\ nth 1 (Binary64.velocity_trace self 100 (4 * 2)
                (9.81 * 1e-320 * 0.00021 * 10 * 2) 0.1) 0%float
       = 1e-5%float
    /\ Binary64.reynolds_of self 1e-5 = Ok 0%float
    /\ Binary64.friction_factor_of 0 = Ok 0.064%float
    /\ Binary64.calculate_flow_rate self 10 = Ok flow
    /\ (0 <? flow * Binary64.density (Binary64.fluid self))%float = false
    /\ Binary64.simulate self 20 = Ok r
    /\ Binary64.temperature_difference_C r = 10%float.
Proof.
  eexists _, _, _.
  split; [vm_compute; reflexivity |].
  split; [vm_compute; reflexivity |].
  split; [vm_compute; reflexivity |].
  split; [vm_compute; reflexivity |].
  split; [vm_compute; reflexivity |].
  split; [vm_compute; reflexivity |].
  split; [vm_compute; reflexivity |].
  split; vm_compute; reflexivity.
Qed.

(** * Further properties of the code *)

(** ** Which inputs raise *)

Lemma pymax_floor (a b : R) : b <= pymax a b.
Proof. unfold pymax. destruct (Rgt_dec b a); lra. Qed.

Lemma pydiv_ok_inv (a b q : R) : pydiv a b = Ok q -> b <> 0 /\ q = a / b.
Proof.
  unfold pydiv. destruct (Req_dec_T b 0) as [E | N]; intros Hq.
  - discriminate Hq.
  - injection Hq as Hq. split; [assumption | symmetry; assumption].
Qed.

Section NonzeroInputs.

Variable self : NaturalCirculationSimulator.
Hypothesis Hmu : viscosity (fluid self) <> 0.
Hypothesis HD : pipe_diameter self <> 0.

(** With a viscosity and a diameter that are not zero a pass of the loop
    raises nothing, whatever the signs of the inputs: when the divisor of
    the velocity step is zero, the density or the height is zero, the head
    and the pressure drop are both zero and the pass stops at the tolerance
    test. *)
Lemma loop_body_nonzero (delta_t v : R) :
  v <> 0 ->
  loop_body self (pressure_head_of self delta_t) v = Ok Break
  \/ exists v',
       loop_body self (pressure_head_of self delta_t) v = Ok (Next v')
       /\ v_floor <= v'.
Proof.
  intros Hv. unfold loop_body, reynolds_of.
  rewrite pydiv_ok by assumption. simpl.
  rewrite friction_factor_of_spec. simpl.
  unfold pressure_drop_of. rewrite pydiv_ok by assumption. simpl.
  set (f := spec_friction _).
  set (drop := f * (loop_length self / pipe_diameter self)
               * (density (fluid self) * (v * (v * 1))) / 2).
  destruct (Rlt_dec (Rabs (pressure_head_of self delta_t - drop)) tolerance)
    as [Hc | Hc]; [left; reflexivity | right].
  unfold velocity_step.
  destruct (Req_dec_T v 0) as [E | _]; [contradiction |].
  rewrite pydiv_ok by assumption. simpl.
  assert (Hd : density (fluid self) * v * loop_length self
               / pipe_diameter self <> 0).
  { intros Hz. apply Hc.
    assert (Hnum : density (fluid self) * v * loop_length self = 0).
    { apply (Rmult_eq_reg_r (/ pipe_diameter self)).
      - rewrite Rmult_0_l. exact Hz.
      - apply Rinv_neq_0_compat. assumption. }
    assert (Hcase : density (fluid self) = 0 \/ loop_height self = 0).
    { apply Rmult_integral in Hnum. destruct Hnum as [Hnum | Hl].
      - apply Rmult_integral in Hnum. destruct Hnum as [Hr | Hv0].
        + left. assumption.
        + contradiction.
      - right. unfold loop_length in Hl. lra. }
    replace (pressure_head_of self delta_t - drop) with 0.
    - rewrite Rabs_R0. unfold tolerance. lra.
    - unfold drop, pressure_head_of, loop_length.
      destruct Hcase as [Hr | Hh]; rewrite Hr || rewrite Hh;
        unfold Rdiv; ring. }
  rewrite pydiv_ok by assumption. simpl.
  eexists. split; [reflexivity | apply pymax_floor].
Qed.

Lemma velocity_loop_nonzero (delta_t : R) (n : nat) :
  forall v, v_floor <= v ->
  exists v',
    velocity_loop self n (pressure_head_of self delta_t) v = Ok v'
    /\ v_floor <= v'.
Proof.
  induction n as [| n IH]; intros v Hv; simpl.
  - exists v. split; [reflexivity | assumption].
  - destruct (loop_body_nonzero delta_t v (floor_nonzero v Hv))
      as [Hb | (v' & Hb & Hv')]; rewrite Hb; simpl.
    + exists v. split; [reflexivity | assumption].
    + apply IH. assumption.
Qed.

Lemma first_estimate_nonzero :
  exists re f d,
    reynolds_of self v_init = Ok re
    /\ friction_factor_of re = Ok f
    /\ pressure_drop_of self f v_init = Ok d.
Proof.
  unfold reynolds_of, pressure_drop_of.
  rewrite !pydiv_ok by assumption.
  eexists _, _, _. split; [reflexivity |]. split.
  - apply friction_factor_of_spec.
  - simpl. reflexivity.
Qed.

Lemma calculate_flow_rate_nonzero (delta_t : R) :
  exists v,
    calculate_flow_rate self delta_t = Ok (v * cross_section self)
    /\ v_floor <= v.
Proof.
  destruct first_estimate_nonzero as (re & f & d & Hre & Hf & Hd).
  destruct (velocity_loop_nonzero delta_t max_iter v_init v_init_floor)
    as (v & Hl & Hv).
  exists v. split; [| assumption].
  unfold calculate_flow_rate. rewrite Hre. cbn [bind]. rewrite Hf.
  cbn [bind]. rewrite Hd. cbn [bind]. rewrite Hl. reflexivity.
Qed.

End NonzeroInputs.

Lemma zero_viscosity_body (self : NaturalCirculationSimulator) (v : R) :
  viscosity (fluid self) = 0 -> reynolds_of self v = Raise ZeroDivisionError.
Proof. intros E. unfold reynolds_of. rewrite E. apply pydiv_zero. Qed.

Lemma zero_diameter_drop (self : NaturalCirculationSimulator) (f v : R) :
  pipe_diameter self = 0 ->
  pressure_drop_of self f v = Raise ZeroDivisionError.
Proof.
  intros E. unfold pressure_drop_of. rewrite E, pydiv_zero. reflexivity.
Qed.

Lemma calculate_flow_rate_raises (self : NaturalCirculationSimulator)
      (delta_t : R) :
  viscosity (fluid self) = 0 \/ pipe_diameter self = 0 ->
  calculate_flow_rate self delta_t = Raise ZeroDivisionError.
Proof.
  intros Hz. unfold calculate_flow_rate.
  destruct (Req_dec_T (viscosity (fluid self)) 0) as [Emu | Nmu].
  - rewrite zero_viscosity_body by assumption. reflexivity.
  - destruct Hz as [Emu | ED]; [contradiction |].
    unfold reynolds_of. rewrite pydiv_ok by assumption. cbn [bind].
    rewrite friction_factor_of_spec. cbn [bind].
    rewrite zero_diameter_drop by assumption. reflexivity.
Qed.

(** X1. [calculate_flow_rate] raises [ZeroDivisionError] when the viscosity
    or the pipe diameter is zero, and for every other input, of any sign, it
    returns a velocity of at least [1e-5] times the cross section. *)
Theorem flow_rate_raises_exactly (self : NaturalCirculationSimulator)
        (delta_t : R) :
  (viscosity (fluid self) = 0 \/ pipe_diameter self = 0 ->
   calculate_flow_rate self delta_t = Raise ZeroDivisionError)
  /\ (viscosity (fluid self) <> 0 /\ pipe_diameter self <> 0 ->
      exists v,
        calculate_flow_rate self delta_t = Ok (v * cross_section self)
        /\ v_floor <= v).
Proof.
  split.
  - apply calculate_flow_rate_raises.
  - intros [Hmu HD]. apply calculate_flow_rate_nonzero; assumption.
Qed.

(** X2. Lines 73-82 change nothing: for every input, raising ones included,
    [calculate_flow_rate] is the loop started at [0.1] followed by the
    multiplication by the cross section. *)
Theorem first_estimate_redundant (self : NaturalCirculationSimulator)
        (delta_t : R) :
  calculate_flow_rate self delta_t
  = (v <- velocity_loop self max_iter (pressure_head_of self delta_t) v_init ;;
     Ok (v * cross_section self)).
Proof.
  unfold calculate_flow_rate, max_iter.
  change (velocity_loop self 100 (pressure_head_of self delta_t) v_init)
    with (c <- loop_body self (pressure_head_of self delta_t) v_init ;;
          match c with
          | Break => Ok v_init
          | Next v' =>
              velocity_loop self 99 (pressure_head_of self delta_t) v'
          end).
  unfold loop_body.
  destruct (reynolds_of self v_init) as [re | e]; [| reflexivity].
  cbn [bind].
  destruct (friction_factor_of re) as [f | e]; [| reflexivity].
  cbn [bind].
  destruct (pressure_drop_of self f v_init) as [d | e]; reflexivity.
Qed.

(** ** Which inputs make [simulate] raise *)

Lemma simulate_raises_first_pass (self : NaturalCirculationSimulator)
      (t : R) (e : py_error) :
  outer_body self 10 = Raise e -> simulate self t = Raise e.
Proof.
  intros Hb. unfold simulate.
  rewrite (outer_loop_S self 19), Hb. reflexivity.
Qed.

Lemma simulate_of_total_body (self : NaturalCirculationSimulator) (t : R) :
  (forall d, exists p, outer_body self d = Ok p) ->
  exists r, simulate self t = Ok r.
Proof.
  intros Hbody.
  assert (Hloop : forall n fr d, exists fr' d',
            outer_loop self n fr d = Ok (fr', d')
            /\ (n <> O -> exists f, fr' = Some f)).
  { induction n as [| n IH]; intros fr d.
    - exists fr, d. split; [reflexivity | intros N; contradiction].
    - rewrite outer_loop_snoc.
      destruct (IH fr d) as (fr1 & d1 & Hl & _). rewrite Hl. cbn [bind snd].
      destruct (Hbody d1) as (p & Hp). rewrite Hp. cbn [bind].
      eexists _, _. split; [reflexivity |]. intros _. eexists. reflexivity. }
  unfold simulate.
  destruct (Hloop 20%nat None 10) as (fr & d & Hl & Hf).
  destruct Hf as (f & Ef); [discriminate |]. subst fr.
  rewrite Hl. cbn [bind fst snd]. eexists. reflexivity.
Qed.

Lemma cross_section_nonzero (self : NaturalCirculationSimulator) :
  pipe_diameter self <> 0 -> 0 < cross_section self.
Proof.
  intros HD. unfold cross_section.
  apply Rmult_lt_0_compat; [apply PI_RGT_0 |].
  assert (Hsq : 0 < (pipe_diameter self / 2) * (pipe_diameter self / 2)).
  { destruct (Rlt_le_dec 0 (pipe_diameter self)) as [Hp | Hn]; nra. }
  simpl. lra.
Qed.

(** X3. [simulate] raises [ZeroDivisionError] when the viscosity is zero, the
    pipe diameter is zero, or the density is positive and the specific heat is
    zero; for every other input, of any sign, it returns a record. *)
Theorem simulate_raises_exactly (self : NaturalCirculationSimulator)
        (t : R) :
  (viscosity (fluid self) = 0 \/ pipe_diameter self = 0
   \/ (0 < density (fluid self) /\ specific_heat (fluid self) = 0) ->
   simulate self t = Raise ZeroDivisionError)
  /\ (~ (viscosity (fluid self) = 0 \/ pipe_diameter self = 0
         \/ (0 < density (fluid self) /\ specific_heat (fluid self) = 0)) ->
      exists r, simulate self t = Ok r).
Proof.
  split.
  - intros Hz. apply simulate_raises_first_pass. unfold outer_body.
    destruct (Req_dec_T (viscosity (fluid self)) 0) as [Emu | Nmu].
    { rewrite calculate_flow_rate_raises by (left; assumption). reflexivity. }
    destruct (Req_dec_T (pipe_diameter self) 0) as [ED | ND].
    { rewrite calculate_flow_rate_raises by (right; assumption).
      reflexivity. }
    destruct Hz as [E | [E | [Hrho Hcp]]]; try contradiction.
    destruct (calculate_flow_rate_nonzero self Nmu ND 10) as (v & Hf & Hv).
    rewrite Hf. cbn [bind].
    pose proof v_floor_pos as Hfl.
    pose proof (cross_section_nonzero self ND) as HA.
    destruct (Rgt_dec (v * cross_section self * density (fluid self)) 0)
      as [_ | N].
    + rewrite Hcp, Rmult_0_r, pydiv_zero. reflexivity.
    + exfalso. apply N.
      apply Rmult_lt_0_compat; [| assumption].
      apply Rmult_lt_0_compat; [lra | assumption].
  - intros Hn. apply simulate_of_total_body. intros d.
    assert (Nmu : viscosity (fluid self) <> 0)
      by (intros E; apply Hn; left; assumption).
    assert (ND : pipe_diameter self <> 0)
      by (intros E; apply Hn; right; left; assumption).
    destruct (calculate_flow_rate_nonzero self Nmu ND d) as (v & Hf & Hv).
    unfold outer_body. rewrite Hf. cbn [bind].
    pose proof v_floor_pos as Hfl.
    pose proof (cross_section_nonzero self ND) as HA.
    destruct (Rgt_dec (v * cross_section self * density (fluid self)) 0)
      as [Hm | Hm].
    + assert (Hrho : 0 < density (fluid self)).
      { destruct (Rlt_le_dec 0 (density (fluid self))) as [Hp | Hle];
          [assumption |].
        exfalso. assert (0 < v * cross_section self)
          by (apply Rmult_lt_0_compat; lra).
        nra. }
      assert (Ncp : specific_heat (fluid self) <> 0)
        by (intros E; apply Hn; right; right; split; assumption).
      rewrite pydiv_ok.
      * cbn [bind]. eexists. reflexivity.
      * apply Rmult_integral_contrapositive_currified; [lra | assumption].
    + cbn [bind]. eexists. reflexivity.
Qed.

(** ** Degenerate inputs that do not raise *)

(** X4, in exact arithmetic.  Without density or without height (and with
    a viscosity and a
    diameter that are not zero) the head and the pressure drop are both zero,
    the loop stops at its first test, and [calculate_flow_rate] returns
    [0.1] times the cross section for every temperature difference. *)
Theorem no_driving_head_returns_first_guess
        (self : NaturalCirculationSimulator) (delta_t : R) :
  viscosity (fluid self) <> 0 ->
  pipe_diameter self <> 0 ->
  density (fluid self) = 0 \/ loop_height self = 0 ->
  calculate_flow_rate self delta_t = Ok (v_init * cross_section self).
Proof.
  intros Hmu HD Hz.
  destruct (first_estimate_nonzero self Hmu HD) as (re & f0 & d0 & Hre & Hf & Hd).
  unfold calculate_flow_rate. rewrite Hre. cbn [bind]. rewrite Hf.
  cbn [bind]. rewrite Hd. cbn [bind].
  assert (Hb : loop_body self (pressure_head_of self delta_t) v_init
               = Ok Break).
  { unfold loop_body, reynolds_of.
    rewrite pydiv_ok by assumption. cbn [bind].
    rewrite friction_factor_of_spec. cbn [bind].
    unfold pressure_drop_of. rewrite pydiv_ok by assumption. cbn [bind].
    set (f := spec_friction _).
    replace (pressure_head_of self delta_t
             - f * (loop_length self / pipe_diameter self)
               * (density (fluid self) * v_init ^ 2) / 2) with 0.
    - rewrite Rabs_R0.
      destruct (Rlt_dec 0 tolerance) as [_ | N]; [reflexivity |].
      exfalso. apply N. unfold tolerance. lra.
    - unfold pressure_head_of, loop_length.
      destruct Hz as [Hr | Hh]; rewrite Hr || rewrite Hh;
        unfold Rdiv; ring. }
  rewrite (velocity_loop_break self max_iter _ v_init Hb). reflexivity.
Qed.

Lemma no_driving_head_returns_first_guess_witness :
  calculate_flow_rate (mkSim Water 0 (5 / 100) 1000 20) 10
  = Ok (v_init * cross_section (mkSim Water 0 (5 / 100) 1000 20)).
Proof.
  apply (no_driving_head_returns_first_guess
           (mkSim Water 0 (5 / 100) 1000 20) 10).
  - simpl. lra.
  - simpl. lra.
  - right. reflexivity.
Defined.

Lemma relax_fixed (d : R) : 5 / 10 * d + 5 / 10 * d = d.
Proof. lra. Qed.

(** X5, in exact arithmetic.  With a density that is not positive (and a
    viscosity and a diameter that are not zero) the mass flow is never
    positive: each of the 20 passes of [simulate] takes the else branch and
    keeps [delta_t], and the record reports a temperature difference of
    exactly 10 and a hot leg 10 degrees above the cooler. *)
Theorem nonpositive_density_keeps_seed
        (self : NaturalCirculationSimulator) (t : R) :
  viscosity (fluid self) <> 0 ->
  pipe_diameter self <> 0 ->
  density (fluid self) <= 0 ->
  List.length (outer_trace self 20 10) = 20%nat
  /\ Forall (fun p => ~ 0 < snd p * density (fluid self)
                      /\ outer_body self (fst p)
                         = Ok (snd p, 5 / 10 * fst p + 5 / 10 * fst p))
            (outer_trace self 20 10)
  /\ exists r,
       simulate self t = Ok r
       /\ temperature_difference_C r = 10
       /\ hot_leg_temp_C r = cooler_temp self + 10.
Proof.
  intros Hmu HD Hrho.
  assert (Hbody : forall d, exists f,
            outer_body self d = Ok (f, 5 / 10 * d + 5 / 10 * d)
            /\ ~ 0 < f * density (fluid self)).
  { intros d.
    destruct (calculate_flow_rate_nonzero self Hmu HD d) as (v & Hf & Hv).
    unfold outer_body. rewrite Hf. cbn [bind].
    pose proof v_floor_pos as Hfl.
    pose proof (cross_section_nonzero self HD) as HA.
    assert (Hva : 0 < v * cross_section self)
      by (apply Rmult_lt_0_compat; lra).
    assert (Hm : ~ 0 < v * cross_section self * density (fluid self))
      by (intros Hm; nra).
    destruct (Rgt_dec (v * cross_section self * density (fluid self)) 0)
      as [Hgt | _]; [contradiction |].
    cbn [bind]. eexists. split; [reflexivity | assumption]. }
  assert (Htrace : forall n d,
            List.length (outer_trace self n d) = n
            /\ Forall (fun p => ~ 0 < snd p * density (fluid self)
                                /\ outer_body self (fst p)
                                   = Ok (snd p,
                                         5 / 10 * fst p + 5 / 10 * fst p))
                      (outer_trace self n d)).
  { induction n as [| n IH]; intros d.
    - split; [reflexivity | constructor].
    - destruct (Hbody d) as (f & Hb & Hm).
      change (outer_trace self (S n) d)
        with (match outer_body self d with
              | Ok p => (d, fst p) :: outer_trace self n (snd p)
              | Raise _ => []
              end).
      rewrite Hb. cbn [fst snd].
      destruct (IH (5 / 10 * d + 5 / 10 * d)) as (Hlen & Hall).
      split.
      + change (List.length ((d, f) :: outer_trace self n
                                         (5 / 10 * d + 5 / 10 * d)))
          with (S (List.length (outer_trace self n
                                  (5 / 10 * d + 5 / 10 * d)))).
        rewrite Hlen. reflexivity.
      + constructor; [| assumption]. cbn [fst snd]. split; assumption. }
  assert (Hloop : forall n fr d, exists fr' d',
            outer_loop self n fr d = Ok (fr', d') /\ d' = d
            /\ (n <> O -> exists f, fr' = Some f)).
  { induction n as [| n IH]; intros fr d.
    - exists fr, d. repeat split. intros N. contradiction.
    - rewrite outer_loop_S. destruct (Hbody d) as (f & Hb & _). rewrite Hb.
      cbn [bind fst snd].
      destruct (IH (Some f) (5 / 10 * d + 5 / 10 * d))
        as (fr' & d' & Hl & Ed & Hsome).
      exists fr', d'. split; [assumption |]. split.
      + rewrite Ed. apply relax_fixed.
      + intros _. destruct n as [| n].
        * simpl in Hl. injection Hl as E1 E2. exists f. symmetry. assumption.
        * apply Hsome. discriminate. }
  destruct (Htrace 20%nat 10) as (Hlen & Hall).
  split; [exact Hlen |]. split; [exact Hall |].
  unfold simulate.
  destruct (Hloop 20%nat None 10) as (fr & d & Hl & Ed & Hf).
  destruct Hf as (f & Ef); [discriminate |]. subst fr d.
  rewrite Hl. cbn [bind fst snd]. eexists. split; [reflexivity |].
  split; reflexivity.
Qed.

Lemma nonpositive_density_keeps_seed_witness :
  List.length
    (outer_trace (mkSim (mkFluid "Void" 0 4182 1 1) 2 1 1000 20) 20 10)
  = 20%nat
  /\ exists r,
       simulate (mkSim (mkFluid "Void" 0 4182 1 1) 2 1 1000 20) 20 = Ok r
       /\ temperature_difference_C r = 10
       /\ hot_leg_temp_C r
          = cooler_temp (mkSim (mkFluid "Void" 0 4182 1 1) 2 1 1000 20) + 10.
Proof.
  assert (Hmu : viscosity (fluid (mkSim (mkFluid "Void" 0 4182 1 1)
                                    2 1 1000 20)) <> 0)
    by (simpl; lra).
  assert (HD : pipe_diameter (mkSim (mkFluid "Void" 0 4182 1 1)
                                2 1 1000 20) <> 0)
    by (simpl; lra).
  assert (Hrho : density (fluid (mkSim (mkFluid "Void" 0 4182 1 1)
                                   2 1 1000 20)) <= 0)
    by (simpl; lra).
  destruct (nonpositive_density_keeps_seed
              (mkSim (mkFluid "Void" 0 4182 1 1) 2 1 1000 20) 20
              Hmu HD Hrho) as (Hlen & _ & Hr).
  split; [exact Hlen | exact Hr].
Defined.

(** ** No buoyancy: the velocity only goes down *)

Section NoBuoyancy.

Variable self : NaturalCirculationSimulator.
Hypothesis Hpos : positive_inputs self.

Lemma head_nonpositive (delta_t : R) :
  delta_t <= 0 -> pressure_head_of self delta_t <= 0.
Proof.
  intros Hd. destruct Hpos as (Hr & _ & _ & Hh).
  unfold pressure_head_of, g_accel, beta.
  assert (0 <= 981 / 100 * density (fluid self) * (21 / 100000)
               * loop_height self) by nra.
  nra.
Qed.

Lemma spec_next_descends (head v : R) :
  head <= 0 -> v_floor <= v -> spec_next self head v <= v.
Proof.
  intros Hh Hv. pose proof v_floor_pos as Hfl.
  pose proof (spec_drop_pos self Hpos v ltac:(lra)) as Hdrop.
  destruct Hpos as (Hr & _ & Hd & Hht).
  unfold spec_next. apply Rmax_lub; [| unfold v_floor in Hv; lra].
  assert (Hden : 0 < density (fluid self) * v * (4 * loop_height self)
                     / pipe_diameter self).
  { apply Rdiv_lt_0_compat; [| assumption].
    apply Rmult_lt_0_compat; [| lra].
    apply Rmult_lt_0_compat; lra. }
  assert (Hq : (head - spec_drop self v)
               / (density (fluid self) * v * (4 * loop_height self)
                  / pipe_diameter self) < 0).
  { apply quotient_below; [assumption | lra]. }
  lra.
Qed.

Lemma velocity_trace_below (head : R) (n : nat) :
  head <= 0 ->
  forall v, v_floor <= v ->
  Forall (fun u => u <= v) (velocity_trace self n head v).
Proof.
  intros Hh. induction n as [| n IH]; intros v Hv; simpl.
  - constructor.
  - constructor; [lra |].
    rewrite (loop_body_spec self Hpos) by (apply floor_nonzero; assumption).
    destruct (Rlt_dec (Rabs (head - spec_drop self v)) tolerance).
    + constructor.
    + pose proof (spec_next_descends head v Hh Hv) as Hle.
      apply (Forall_impl _ (P := fun u => u <= spec_next self head v)).
      * intros u Hu. lra.
      * apply IH. apply spec_next_floor.
Qed.

Lemma velocity_trace_descends (head : R) (n : nat) :
  head <= 0 ->
  forall v, v_floor <= v ->
  StronglySorted (fun a b => b <= a) (velocity_trace self n head v).
Proof.
  intros Hh. induction n as [| n IH]; intros v Hv.
  - constructor.
  - pose proof (velocity_trace_below head (S n) Hh v Hv) as Hall.
    simpl in Hall |- *. inversion Hall as [| x l _ Htl]; subst.
    constructor; [| assumption].
    rewrite (loop_body_spec self Hpos) by (apply floor_nonzero; assumption).
    destruct (Rlt_dec (Rabs (head - spec_drop self v)) tolerance).
    + constructor.
    + apply IH. apply spec_next_floor.
Qed.

Lemma velocity_loop_below (head : R) (n : nat) :
  head <= 0 ->
  forall v, v_floor <= v ->
  exists v', velocity_loop self n head v = Ok v' /\ v_floor <= v' <= v.
Proof.
  intros Hh. induction n as [| n IH]; intros v Hv; simpl.
  - exists v. split; [reflexivity | lra].
  - rewrite (loop_body_spec self Hpos) by (apply floor_nonzero; assumption).
    cbn [bind].
    destruct (Rlt_dec (Rabs (head - spec_drop self v)) tolerance).
    + exists v. split; [reflexivity | lra].
    + destruct (IH (spec_next self head v) (spec_next_floor self head v))
        as (v' & Hl & Hv').
      pose proof (spec_next_descends head v Hh Hv).
      exists v'. split; [assumption | lra].
Qed.

End NoBuoyancy.

(** X6, in exact arithmetic.  With strictly positive inputs and a
    temperature difference that is
    zero or negative, the velocities the loop visits never increase, and
    [calculate_flow_rate] returns a velocity between [1e-5] and the first
    guess [0.1] times the cross section. *)
Theorem no_buoyancy_velocity_descends (self : NaturalCirculationSimulator)
        (delta_t : R) :
  positive_inputs self ->
  delta_t <= 0 ->
  StronglySorted (fun a b => b <= a)
    (velocity_trace self max_iter (pressure_head_of self delta_t) v_init)
  /\ exists v,
       calculate_flow_rate self delta_t = Ok (v * cross_section self)
       /\ v_floor <= v <= v_init.
Proof.
  intros Hpos Hd. pose proof (head_nonpositive self Hpos delta_t Hd) as Hh.
  split.
  - apply velocity_trace_descends; [assumption | assumption |].
    apply v_init_floor.
  - destruct (velocity_loop_below self Hpos _ max_iter Hh v_init v_init_floor)
      as (v & Hl & Hv).
    exists v. split; [| assumption].
    rewrite (calculate_flow_rate_loop self Hpos), Hl. reflexivity.
Qed.

Lemma no_buoyancy_velocity_descends_witness :
  positive_inputs reference_sim
  /\ (StronglySorted (fun a b => b <= a)
        (velocity_trace reference_sim max_iter
           (pressure_head_of reference_sim (-5)) v_init)
      /\ exists v,
           calculate_flow_rate reference_sim (-5)
           = Ok (v * cross_section reference_sim)
           /\ v_floor <= v <= v_init).
Proof.
  assert (Hpos : positive_inputs reference_sim)
    by (unfold positive_inputs; simpl; lra).
  split; [exact Hpos |].
  apply (no_buoyancy_velocity_descends reference_sim (-5) Hpos). lra.
Defined.

(** ** The relaxed temperature difference stays in range *)

Section Relaxation.

Variable self : NaturalCirculationSimulator.
Hypothesis Hpos : positive_inputs self.
Hypothesis Hcp : 0 < specific_heat (fluid self).
Hypothesis HQ : 0 <= heater_power self.

(** The largest value the energy balance can give: the heater power carried
    by the mass flow of the velocity floor. *)
Let ceiling : R :=
  heater_power self
  / (v_floor * cross_section self * density (fluid self)
     * specific_heat (fluid self)).

Lemma floor_mass_flow_pos :
  0 < v_floor * cross_section self * density (fluid self)
      * specific_heat (fluid self).
Proof.
  pose proof v_floor_pos. pose proof (cross_section_pos self Hpos).
  pose proof (pos_rho self Hpos) as Hr. simpl in Hr.
  apply Rmult_lt_0_compat; [| assumption].
  apply Rmult_lt_0_compat; [| assumption].
  apply Rmult_lt_0_compat; assumption.
Qed.

Lemma outer_body_range (d : R) :
  exists f c,
    outer_body self d = Ok (f, 5 / 10 * d + 5 / 10 * c)
    /\ 0 <= c <= ceiling
    /\ (heater_power self = 0 -> c = 0).
Proof.
  destruct (calculate_flow_rate_total self Hpos d) as (v & _ & Hv & Hf & Hp).
  pose proof v_floor_pos as Hfl.
  pose proof (cross_section_pos self Hpos) as HA.
  pose proof (pos_rho self Hpos) as Hr. simpl in Hr.
  pose proof floor_mass_flow_pos as Hfm.
  assert (Hm : 0 < v * cross_section self * density (fluid self))
    by (apply Rmult_lt_0_compat; assumption).
  assert (Hmc : 0 < v * cross_section self * density (fluid self)
                    * specific_heat (fluid self))
    by (apply Rmult_lt_0_compat; assumption).
  exists (v * cross_section self),
         (heater_power self
          / (v * cross_section self * density (fluid self)
             * specific_heat (fluid self))).
  split; [| split].
  - unfold outer_body. rewrite Hf. cbn [bind].
    destruct (Rgt_dec (v * cross_section self * density (fluid self)) 0)
      as [_ | N]; [| lra].
    rewrite pydiv_ok by lra. reflexivity.
  - split.
    + apply Rmult_le_pos; [assumption |].
      apply Rlt_le, Rinv_0_lt_compat. assumption.
    + unfold ceiling, Rdiv. apply Rmult_le_compat_l; [assumption |].
      apply Rinv_le_contravar; [assumption |].
      apply Rmult_le_compat_r; [lra |].
      apply Rmult_le_compat_r; [lra |].
      apply Rmult_le_compat_r; lra.
  - intros E. rewrite E. unfold Rdiv. apply Rmult_0_l.
Qed.

Lemma outer_loop_range (n : nat) :
  forall fr d,
  0 < d <= Rmax 10 ceiling ->
  exists fr' d',
    outer_loop self n fr d = Ok (fr', d')
    /\ d / 2 ^ n <= d' <= Rmax 10 ceiling
    /\ (heater_power self = 0 -> d' = d / 2 ^ n)
    /\ (n <> O -> exists f, fr' = Some f).
Proof.
  induction n as [| n IH]; intros fr d Hd.
  - exists fr, d. split; [reflexivity |].
    replace (d / 2 ^ 0) with d by (simpl; field).
    repeat split; try lra. intros N. contradiction.
  - rewrite outer_loop_S.
    destruct (outer_body_range d) as (f & c & Hb & Hc & Hzero).
    rewrite Hb. cbn [bind fst snd].
    pose proof (Rmax_r 10 ceiling) as Hmr.
    assert (Hd' : 0 < 5 / 10 * d + 5 / 10 * c <= Rmax 10 ceiling) by lra.
    destruct (IH (Some f) _ Hd') as (fr' & d' & Hl & Hr & Hz & Hsome).
    exists fr', d'. split; [assumption |].
    assert (Hpow : 0 < 2 ^ n) by (apply pow_lt; lra).
    assert (Hhalf : d / 2 ^ S n = 5 / 10 * d / 2 ^ n)
      by (simpl; field; lra).
    assert (Hmono : 5 / 10 * d / 2 ^ n
                    <= (5 / 10 * d + 5 / 10 * c) / 2 ^ n).
    { unfold Rdiv. apply Rmult_le_compat_r; [| lra].
      apply Rlt_le, Rinv_0_lt_compat. assumption. }
    repeat split.
    + lra.
    + lra.
    + intros E. rewrite (Hz E), (Hzero E), Hhalf. f_equal. lra.
    + intros _. destruct n as [| n].
      * simpl in Hl. injection Hl as E1 E2. exists f. symmetry. assumption.
      * apply Hsome. discriminate.
Qed.

Lemma simulate_range (t : R) :
  exists r,
    simulate self t = Ok r
    /\ 10 / 2 ^ 20 <= temperature_difference_C r <= Rmax 10 ceiling
    /\ (heater_power self = 0 -> temperature_difference_C r = 10 / 2 ^ 20)
    /\ hot_leg_temp_C r = cold_leg_temp_C r + temperature_difference_C r.
Proof.
  pose proof (Rmax_l 10 ceiling) as Hml.
  destruct (outer_loop_range 20 None 10 ltac:(lra))
    as (fr & d & Hl & Hr & Hz & Hf).
  destruct Hf as (f & Ef); [discriminate |]. subst fr.
  unfold simulate. rewrite Hl. cbn [bind fst snd].
  eexists. split; [reflexivity |]. cbn [temperature_difference_C
    hot_leg_temp_C cold_leg_temp_C].
  split; [exact Hr |]. split; [exact Hz | reflexivity].
Qed.

End Relaxation.

Lemma result_fields_of_run (self : NaturalCirculationSimulator) (t : R)
      (r : SimResult) :
  simulate self t = Ok r ->
  cold_leg_temp_C r = cooler_temp self
  /\ hot_leg_temp_C r = cooler_temp self + temperature_difference_C r.
Proof.
  intros Hs. apply simulate_inv in Hs. destruct Hs as (f & d & _ & Hr).
  subst r. split; reflexivity.
Qed.

(** X7, in exact arithmetic.  With strictly positive inputs and a heater
    power that is not
    negative, [simulate] returns a temperature difference of at least
    [10 / 2^20] and at most the larger of 10 and the heater power divided by
    the heat capacity rate of the slowest flow the solver can return
    ([1e-5 * cross_section * rho * c_p]); the hot leg is strictly warmer
    than the cold leg. *)
Theorem temperature_difference_range (self : NaturalCirculationSimulator)
        (t : R) :
  positive_inputs self ->
  0 < specific_heat (fluid self) ->
  0 <= heater_power self ->
  exists r,
    simulate self t = Ok r
    /\ 10 / 2 ^ 20 <= temperature_difference_C r
    /\ temperature_difference_C r
       <= Rmax 10 (heater_power self
                   / (v_floor * cross_section self * density (fluid self)
                      * specific_heat (fluid self)))
    /\ cold_leg_temp_C r < hot_leg_temp_C r.
Proof.
  intros Hpos Hcp HQ.
  destruct (simulate_range self Hpos Hcp HQ t) as (r & Hs & Hr & _ & Hhot).
  cbv zeta in Hr. exists r. split; [assumption |].
  split; [lra |]. split; [lra |].
  assert (0 < 10 / 2 ^ 20) by (apply Rdiv_lt_0_compat; [lra | apply pow_lt; lra]).
  lra.
Qed.

Lemma temperature_difference_range_witness :
  exists r,
    simulate reference_sim 20 = Ok r
    /\ 10 / 2 ^ 20 <= temperature_difference_C r
    /\ temperature_difference_C r
       <= Rmax 10 (heater_power reference_sim
                   / (v_floor * cross_section reference_sim
                      * density (fluid reference_sim)
                      * specific_heat (fluid reference_sim)))
    /\ cold_leg_temp_C r < hot_leg_temp_C r.
Proof.
  apply (temperature_difference_range reference_sim 20).
  - unfold positive_inputs. simpl. lra.
  - simpl. lra.
  - simpl. lra.
Defined.

(** X8, in exact arithmetic.  With strictly positive inputs and no heater
    power, every pass of
    [simulate] halves the temperature difference: the record reports exactly
    [10 / 2^20]. *)
Theorem zero_power_halves (self : NaturalCirculationSimulator) (t : R) :
  positive_inputs self ->
  0 < specific_heat (fluid self) ->
  heater_power self = 0 ->
  exists r,
    simulate self t = Ok r
    /\ temperature_difference_C r = 10 / 2 ^ 20
    /\ hot_leg_temp_C r = cooler_temp self + 10 / 2 ^ 20.
Proof.
  intros Hpos Hcp HQ.
  destruct (simulate_range self Hpos Hcp ltac:(lra) t)
    as (r & Hs & _ & Hz & Hhot).
  exists r. split; [assumption |]. split; [apply Hz; assumption |].
  rewrite Hhot, (Hz HQ).
  destruct (result_fields_of_run self t r Hs) as [Hc _]. rewrite Hc.
  reflexivity.
Qed.

Lemma zero_power_halves_witness :
  exists r,
    simulate (mkSim Water 2 (5 / 100) 0 20) 20 = Ok r
    /\ temperature_difference_C r = 10 / 2 ^ 20
    /\ hot_leg_temp_C r
       = cooler_temp (mkSim Water 2 (5 / 100) 0 20) + 10 / 2 ^ 20.
Proof.
  apply (zero_power_halves (mkSim Water 2 (5 / 100) 0 20) 20).
  - unfold positive_inputs. simpl. lra.
  - simpl. lra.
  - reflexivity.
Defined.

(** ** The friction factor and the pressure drop *)




(** X10, in exact arithmetic.  With strictly positive inputs the pressure
    drop that a pass of the
    loop computes is strictly increasing in the velocity, across the switch
    from the laminar to the turbulent formula as well. *)
Theorem pressure_drop_increasing (self : NaturalCirculationSimulator)
        (v1 v2 : R) :
  positive_inputs self ->
  0 < v1 -> v1 < v2 ->
  exists re1 f1 d1 re2 f2 d2,
    reynolds_of self v1 = Ok re1
    /\ friction_factor_of re1 = Ok f1
    /\ pressure_drop_of self f1 v1 = Ok d1
    /\ reynolds_of self v2 = Ok re2
    /\ friction_factor_of re2 = Ok f2
    /\ pressure_drop_of self f2 v2 = Ok d2
    /\ 0 < d1 < d2.
Proof.
  intros Hpos H1 H12.
  exists (spec_reynolds self v1), (spec_friction (spec_reynolds self v1)),
         (spec_drop self v1),
         (spec_reynolds self v2), (spec_friction (spec_reynolds self v2)),
         (spec_drop self v2).
  repeat split.
  - apply reynolds_of_spec. assumption.
  - apply friction_factor_of_spec.
  - apply pressure_drop_of_spec. assumption.
  - apply reynolds_of_spec. assumption.
  - apply friction_factor_of_spec.
  - apply pressure_drop_of_spec. assumption.
  - apply spec_drop_pos; assumption.
  - apply spec_drop_mono; assumption.
Qed.

Lemma pressure_drop_increasing_witness :
  exists re1 f1 d1 re2 f2 d2,
    reynolds_of reference_sim (1 / 100) = Ok re1
    /\ friction_factor_of re1 = Ok f1
    /\ pressure_drop_of reference_sim f1 (1 / 100) = Ok d1
    /\ reynolds_of reference_sim 1 = Ok re2
    /\ friction_factor_of re2 = Ok f2
    /\ pressure_drop_of reference_sim f2 1 = Ok d2
    /\ 0 < d1 < d2.
Proof.
  apply (pressure_drop_increasing reference_sim (1 / 100) 1).
  - unfold positive_inputs. simpl. lra.
  - lra.
  - lra.
Defined.

(** ** The velocity update and the loop height *)

(** The update in closed form: the height and the density cancel between
    the residual and its divisor. *)
Lemma spec_next_closed (self : NaturalCirculationSimulator)
      (delta_t v : R) :
  positive_inputs self -> v <> 0 ->
  spec_next self (pressure_head_of self delta_t) v
  = Rmax (v + (g_accel * beta * delta_t * pipe_diameter self / (4 * v)
               - spec_friction (spec_reynolds self v) * v / 2))
         (1 / 100000).
Proof.
  intros (Hr & Hm & Hd & Hh) Hv.
  unfold spec_next, spec_drop, pressure_head_of.
  set (f := spec_friction (spec_reynolds self v)).
  f_equal. f_equal. field. repeat split; lra.
Qed.

(** X11, in exact arithmetic.  The next velocity does not depend on the
    loop height: two
    simulators with the same fluid and pipe diameter and strictly positive
    heights, at the same temperature difference and velocity, compute the
    same next velocity whenever neither stops at the tolerance test. *)
Theorem update_independent_of_height
        (fl : Fluid) (D H1 H2 Q1 Q2 T1 T2 delta_t v v1 v2 : R) :
  positive_inputs (mkSim fl H1 D Q1 T1) ->
  positive_inputs (mkSim fl H2 D Q2 T2) ->
  v <> 0 ->
  loop_body (mkSim fl H1 D Q1 T1)
    (pressure_head_of (mkSim fl H1 D Q1 T1) delta_t) v = Ok (Next v1) ->
  loop_body (mkSim fl H2 D Q2 T2)
    (pressure_head_of (mkSim fl H2 D Q2 T2) delta_t) v = Ok (Next v2) ->
  v1 = v2.
Proof.
  intros Hp1 Hp2 Hv Hb1 Hb2.
  rewrite (loop_body_spec _ Hp1) in Hb1 by assumption.
  rewrite (loop_body_spec _ Hp2) in Hb2 by assumption.
  destruct (Rlt_dec _ tolerance) in Hb1; [discriminate Hb1 |].
  destruct (Rlt_dec _ tolerance) in Hb2; [discriminate Hb2 |].
  injection Hb1 as E1. injection Hb2 as E2.
  rewrite <- E1, <- E2.
  rewrite (spec_next_closed _ delta_t v Hp1 Hv).
  rewrite (spec_next_closed _ delta_t v Hp2 Hv).
  reflexivity.
Qed.

Lemma tall_oil_step (H : R) :
  1 <= H ->
  loop_body (mkSim thick_oil H 1 1000 20)
    (pressure_head_of (mkSim thick_oil H 1 1000 20) 200) v_init
  = Ok (Next (13005 / 100000)).
Proof.
  intros HH.
  assert (Hp : positive_inputs (mkSim thick_oil H 1 1000 20))
    by (unfold positive_inputs; simpl; lra).
  assert (Hdrop : spec_drop (mkSim thick_oil H 1 1000 20) v_init
                  = 128 / 10 * H).
  { rewrite (spec_drop_laminar _ Hp)
      by (unfold v_init, spec_reynolds; simpl; lra).
    unfold v_init. simpl. field. }
  assert (Hhead : pressure_head_of (mkSim thick_oil H 1 1000 20) 200
                  = 1318464 / 100000 * H).
  { unfold pressure_head_of, g_accel, beta. simpl. field. }
  rewrite (loop_body_next _ Hp).
  - do 2 f_equal. unfold spec_next. rewrite Hdrop, Hhead.
    unfold v_init. simpl.
    replace ((1318464 / 100000 * H - 128 / 10 * H)
             / (32 * (1 / 10) * (4 * H) / 1))
      with (3005 / 100000) by (field; lra).
    rewrite Rmax_left; lra.
  - unfold v_init. lra.
  - rewrite Hdrop, Hhead. unfold tolerance.
    rewrite Rabs_right by lra. lra.
Qed.

Lemma update_independent_of_height_witness :
  exists v1 v2,
    loop_body (mkSim thick_oil 1 1 1000 20)
      (pressure_head_of (mkSim thick_oil 1 1 1000 20) 200) v_init
    = Ok (Next v1)
    /\ loop_body (mkSim thick_oil 2 1 1000 20)
         (pressure_head_of (mkSim thick_oil 2 1 1000 20) 200) v_init
       = Ok (Next v2)
    /\ v_floor < v1
    /\ v1 = v2.
Proof.
  assert (Hp1 : positive_inputs (mkSim thick_oil 1 1 1000 20))
    by (unfold positive_inputs; simpl; lra).
  assert (Hp2 : positive_inputs (mkSim thick_oil 2 1 1000 20))
    by (unfold positive_inputs; simpl; lra).
  assert (Hv : v_init <> 0) by (unfold v_init; lra).
  pose proof (tall_oil_step 1 ltac:(lra)) as Hb1.
  pose proof (tall_oil_step 2 ltac:(lra)) as Hb2.
  exists (13005 / 100000), (13005 / 100000).
  split; [exact Hb1 |]. split; [exact Hb2 |].
  split; [unfold v_floor; lra |].
  exact (update_independent_of_height thick_oil 1 1 2 1000 1000 20 20 200
           v_init _ _ Hp1 Hp2 Hv Hb1 Hb2).
Defined.

(** ** What the returned record satisfies *)

Lemma simulate_last_pass (self : NaturalCirculationSimulator) (t : R)
      (r : SimResult) :
  simulate self t = Ok r ->
  exists fr d19,
    outer_loop self 19 None 10 = Ok (fr, d19)
    /\ outer_body self d19
       = Ok (flow_rate_m3_s r, temperature_difference_C r).
Proof.
  intros Hs. apply simulate_inv in Hs. destruct Hs as (f & d & Hl & Hr).
  rewrite (outer_loop_snoc self 19) in Hl.
  apply bind_ok_inv in Hl. destruct Hl as ([fr d19] & H19 & Hl).
  apply bind_ok_inv in Hl. destruct Hl as ([f' d'] & Hb & Hl).
  simpl in Hb, Hl. injection Hl as E1 E2. subst f' d' r. simpl.
  exists fr, d19. split; assumption.
Qed.

(** X12, in exact arithmetic.  With strictly positive inputs the record
    returned by [simulate]
    misses the energy balance [Q = mass_flow * c_p * delta_t] by the mass
    flow times [c_p] times the change the last pass made to [delta_t]; it
    meets the balance exactly when the last pass left [delta_t] unchanged.
    The reported flow rate is at least [1e-5] times the cross section. *)
Theorem energy_balance_gap (self : NaturalCirculationSimulator) (t : R) :
  positive_inputs self ->
  0 < specific_heat (fluid self) ->
  exists r fr d19,
    simulate self t = Ok r
    /\ outer_loop self 19 None 10 = Ok (fr, d19)
    /\ v_floor * cross_section self <= flow_rate_m3_s r
    /\ heater_power self
       - flow_rate_m3_s r * density (fluid self) * specific_heat (fluid self)
         * temperature_difference_C r
       = flow_rate_m3_s r * density (fluid self) * specific_heat (fluid self)
         * (temperature_difference_C r - d19).
Proof.
  intros Hpos Hcp.
  destruct (simulate_total self Hpos Hcp t) as (r & Hs).
  destruct (simulate_last_pass self t r Hs) as (fr & d19 & H19 & Hb).
  exists r, fr, d19. split; [assumption |]. split; [assumption |].
  destruct (calculate_flow_rate_total self Hpos d19)
    as (v & _ & Hv & Hf & Hp).
  destruct (outer_body_total self Hpos Hcp d19) as (f & Hf' & Hm & Hb').
  rewrite Hf in Hf'. injection Hf' as Ef. subst f.
  rewrite Hb in Hb'. injection Hb' as E1 E2.
  pose proof (cross_section_pos self Hpos) as HA.
  split.
  - rewrite E1. apply Rmult_le_compat_r; lra.
  - rewrite E2, E1.
    set (m := v * cross_section self * density (fluid self)) in *.
    field. lra.
Qed.

Lemma energy_balance_gap_witness :
  exists r fr d19,
    simulate reference_sim 20 = Ok r
    /\ outer_loop reference_sim 19 None 10 = Ok (fr, d19)
    /\ v_floor * cross_section reference_sim <= flow_rate_m3_s r
    /\ heater_power reference_sim
       - flow_rate_m3_s r * density (fluid reference_sim)
         * specific_heat (fluid reference_sim) * temperature_difference_C r
       = flow_rate_m3_s r * density (fluid reference_sim)
         * specific_heat (fluid reference_sim)
         * (temperature_difference_C r - d19).
Proof.
  apply (energy_balance_gap reference_sim 20).
  - unfold positive_inputs. simpl. lra.
  - simpl. lra.
Defined.

(** ** The velocity floor on binary64 numbers *)

Lemma binary64_pymax_floor (a : float) :
  (Binary64.pymax a 1e-5 <? 1e-5)%float = false.
Proof.
  unfold Binary64.pymax. destruct (a <? 1e-5)%float eqn:E.
  - vm_compute. reflexivity.
  - exact E.
Qed.

Lemma binary64_next_floor (self : Binary64.NaturalCirculationSimulator)
      (loop_length pressure_head v v' : float) :
  Binary64.loop_body self loop_length pressure_head v
  = Ok (Binary64.NextF v') ->
  (v' <? 1e-5)%float = false.
Proof.
  unfold Binary64.loop_body. intros Hb.
  apply bind_ok_inv in Hb. destruct Hb as (re & _ & Hb).
  apply bind_ok_inv in Hb. destruct Hb as (f & _ & Hb).
  apply bind_ok_inv in Hb. destruct Hb as (drop & _ & Hb).
  cbv zeta in Hb.
  destruct (abs (pressure_head - drop) <? 1e-6)%float; [discriminate Hb |].
  apply bind_ok_inv in Hb. destruct Hb as (dv & _ & Hb).
  injection Hb as E. subst v'. apply binary64_pymax_floor.
Qed.

Lemma binary64_trace_floor (self : Binary64.NaturalCirculationSimulator)
      (loop_length pressure_head : float) (n : nat) :
  forall v,
  (v <? 1e-5)%float = false ->
  Forall (fun u => (u <? 1e-5)%float = false)
         (Binary64.velocity_trace self n loop_length pressure_head v).
Proof.
  induction n as [| n IH]; intros v Hv; simpl.
  - constructor.
  - constructor; [assumption |].
    destruct (Binary64.loop_body self loop_length pressure_head v)
      as [[| v'] | e] eqn:Hb; try constructor.
    apply IH. eapply binary64_next_floor. exact Hb.
Qed.

(** X13. On binary64 numbers, for every simulator and every temperature
    difference, whatever their values: each velocity at which the loop body
    runs is not below [1e-5] (the test [v < 1e-5] is false; the velocity may
    be a NaN), and so is the velocity the loop returns. *)
Theorem binary64_velocity_floor
        (self : Binary64.NaturalCirculationSimulator)
        (loop_length pressure_head : float) :
  Forall (fun u => (u <? 1e-5)%float = false)
         (Binary64.velocity_trace self 100 loop_length pressure_head 0.1)
  /\ forall v,
       Binary64.velocity_loop self 100 loop_length pressure_head 0.1 = Ok v
       -> (v <? 1e-5)%float = false.
Proof.
  assert (H0 : (0.1 <? 1e-5)%float = false) by (vm_compute; reflexivity).
  split.
  - apply binary64_trace_floor. exact H0.
  - assert (Hgen : forall m u w,
              (u <? 1e-5)%float = false ->
              Binary64.velocity_loop self m loop_length pressure_head u
              = Ok w ->
              (w <? 1e-5)%float = false).
    { induction m as [| m IH]; intros u w Hu Hl; simpl in Hl.
      - injection Hl as E. subst w. assumption.
      - apply bind_ok_inv in Hl. destruct Hl as (c & Hb & Hl).
        destruct c as [| u'].
        + injection Hl as E. subst w. assumption.
        + apply (IH u' w); [| assumption].
          eapply binary64_next_floor. exact Hb. }
    intros v Hl. apply (Hgen 100%nat 0.1%float v H0).
    exact Hl.
Qed.
